(** * ABI report generator (Scripts/abireport.py): model and properties

    A shallow embedding of [abireport.py].  The script shells out to
    [file], [objdump], [nm] and [readelf]; those tools and the file system
    are the environment of the model ([Env]), everything the script itself
    computes from their answers is a Rocq function named after the Python
    function it embeds.

    Text is modelled as [string] (sequences of bytes, read as UTF-8).
    Python compares [str] values code point by code point, which on UTF-8
    text agrees with the byte-wise order [String.le] used here.  White
    space is the ASCII white space of [str.isspace]. *)

From Stdlib Require Import Ascii.
From stdpp Require Import base gmap sets list strings sorting.

#[local] Set Warnings "-clear-no-such-hyp".

(** ** Python string primitives *)

Module Py.

(** The characters the script puts into commands and reports. *)
Definition nl : ascii := "010"%char.
Definition dquote : ascii := "034"%char.
Definition rbracket : ascii := "]"%char.

Definition str1 (c : ascii) : string := String c "".

(** [str.isspace] on ASCII: TAB, LF, VT, FF, CR, FS, GS, RS, US, SPACE. *)
Definition isspace (c : ascii) : bool :=
  match c with
  | "009" | "010" | "011" | "012" | "013"
  | "028" | "029" | "030" | "031" | " " => true
  | _ => false
  end%char.

Fixpoint lstrip (s : string) : string :=
  match s with
  | "" => ""
  | String c s' => if isspace c then lstrip s' else s
  end.

Fixpoint rstrip (s : string) : string :=
  match s with
  | "" => ""
  | String c s' =>
      match rstrip s' with
      | "" => if isspace c then "" else str1 c
      | r => String c r
      end
  end.

(** [s.strip()] *)
Definition strip (s : string) : string := rstrip (lstrip s).

(** [s.split(sep)] for a one-character separator: never empty. *)
Fixpoint split_on (sep : ascii) (s : string) : list string :=
  match s with
  | "" => [""]
  | String c s' =>
      if decide (c = sep) then "" :: split_on sep s'
      else match split_on sep s' with
           | w :: ws => String c w :: ws
           | [] => [str1 c]
           end
  end.

(** [s.split()]: the maximal runs of characters that are not white space. *)
Fixpoint split (s : string) : list string :=
  match s with
  | "" => []
  | String c s' =>
      if isspace c then split s'
      else match s' with
           | "" => [str1 c]
           | String c' _ =>
               if isspace c' then str1 c :: split s'
               else match split s' with
                    | w :: ws => String c w :: ws
                    | [] => [str1 c]
                    end
           end
  end.

(** [sub in s] *)
Fixpoint contains (sub s : string) : bool :=
  String.prefix sub s ||
  match s with
  | "" => false
  | String _ s' => contains sub s'
  end.

(** [s[n:]] *)
Fixpoint drop (n : nat) (s : string) : string :=
  match n, s with
  | O, _ => s
  | S n', String _ s' => drop n' s'
  | S _, "" => ""
  end.

(** [s[:s.rindex(c)]]: the text before the last [c] of [s], if there is one. *)
Fixpoint before_last (c : ascii) (s : string) : option string :=
  match s with
  | "" => None
  | String a s' =>
      match before_last c s' with
      | Some r => Some (String a r)
      | None => if decide (a = c) then Some "" else None
      end
  end.

(** The part of [s] a regular expression's [.] can run over from the
    start: [.] matches every character but the line feed. *)
Definition first_line (s : string) : string :=
  match split_on nl s with
  | l :: _ => l
  | [] => ""
  end.

(** [str.format] of a value that is a [str] or [None]. *)
Definition format_opt (x : option string) : string :=
  match x with
  | Some s => s
  | None => "None"
  end.

(** [os.path.join(a, b)] (posixpath). *)
Definition ends_with_slash (a : string) : bool :=
  match String.rev a with
  | String "/" _ => true
  | _ => false
  end.

Definition path_join (a b : string) : string :=
  if String.prefix "/" b then b
  else if bool_decide (a = "") || ends_with_slash a then a +:+ b
  else a +:+ "/" +:+ b.

(** [s.endswith(suffix)] *)
Definition endswith (suffix s : string) : bool :=
  String.prefix (String.rev suffix) (String.rev s).

End Py.

Example split_nm_line :
  Py.split "0000000000001139 T  foo" = ["0000000000001139"; "T"; "foo"].
Proof. reflexivity. Qed.

Example strip_line : Py.strip "  a b	 " = "a b".
Proof. reflexivity. Qed.

Example split_lines :
  Py.split_on "," "a,,b," = ["a"; ""; "b"; ""].
Proof. reflexivity. Qed.

Example join_paths :
  Py.path_join "/w/__extraction" "install" = "/w/__extraction/install"
  ∧ Py.path_join "/w/" "x" = "/w/x" ∧ Py.path_join "/w" "/x" = "/x".
Proof. repeat split; reflexivity. Qed.

(** ** Outcomes of Python code *)

(** The exceptions the script can leave uncaught, and [sys.exit]. *)
Inductive pyexn := AttributeError | TypeError | OSError.

Inductive abort :=
  | SystemExit (code : Z)       (* sys.exit(code) *)
  | Uncaught (e : pyexn).       (* traceback; the interpreter exits with 1 *)

Inductive res (A : Type) :=
  | Ok (a : A)
  | Raise (e : abort).
Arguments Ok {A} a.
Arguments Raise {A} e.

Global Instance res_ret : MRet res := @Ok.
Global Instance res_bind : MBind res := λ A B f m,
  match m with
  | Ok a => f a
  | Raise e => Raise e
  end.

Global Instance pyexn_eq_dec : EqDecision pyexn.
Proof. solve_decision. Defined.
Global Instance abort_eq_dec : EqDecision abort.
Proof. solve_decision. Defined.

(** [for x in xs: st = f(st, x)], stopping at the first exception. *)
Fixpoint for_each {A S : Type} (f : S → A → res S) (xs : list A) (st : S) : res S :=
  match xs with
  | [] => Ok st
  | x :: xs' =>
      match f st x with
      | Ok st' => for_each f xs' st'
      | Raise e => Raise e
      end
  end.

(** The exit status of the process. *)
Definition exit_status (r : res unit) : Z :=
  match r with
  | Ok _ => 0
  | Raise (SystemExit code) => code
  | Raise (Uncaught _) => 1
  end.

(** ** The environment: file system and inspection tools *)

(** What [os.walk] sees below the extraction root.  [DirLink] is a
    symbolic link to a directory: [os.walk] lists it among the
    directories and does not descend into it.  [File] is any other entry
    that is not a directory. *)
#[local] Unset Elimination Schemes.
Inductive dirent :=
  | File
  | DirLink
  | Dir (entries : list (string * dirent)).
#[local] Set Elimination Schemes.

Definition dirent_is_dir (d : dirent) : bool :=
  match d with
  | File => false
  | DirLink | Dir _ => true
  end.

Record Env := {
  (** [os.path.abspath(download_path)]; absolute and normalised, so that
      [os.path.abspath] is the identity on every path built from it *)
  download_path : string;
  download_exists : bool;              (* os.path.exists(download_path) *)
  download_listing : list string;      (* os.listdir(download_path) *)
  extract_dir_exists : bool;           (* a stale __extraction is there *)
  rmtree_before_ok : bool;             (* shutil.rmtree of the stale tree *)
  makedirs_ok : bool;                  (* os.makedirs(extract_dir) *)
  chdir_install_ok : bool;             (* os.chdir(source_dir) *)
  rmtree_after_ok : bool;              (* shutil.rmtree at the end *)
  (** the unpacked tree, as the run sees it once the packages are out *)
  os_path_exists : string → bool;
  os_path_isfile : string → bool;
  os_path_islink : string → bool;
  os_path_isdir : string → bool;
  os_listdir : string → list string;
  install_tree : list (string * dirent);
  (** [subprocess.getoutput(cmd)]: the text the command printed, whatever
      its exit status, or [None] when the call itself raised *)
  subprocess_getoutput : string → option string
}.

(** What the run does not control: the order in which a directory hands
    out its entries, and the order in which a Python [set] is iterated
    (string hashes are salted per process). *)
Record Order := {
  scandir_order : string → ∀ A : Type, list A → list A;
  set_iter : gset string → list string
}.

Definition order_ok (o : Order) : Prop :=
  (∀ dir A (l : list A), scandir_order o dir A l ≡ₚ l) ∧
  (∀ s : gset string, set_iter o s ≡ₚ elements s).

(** The order that changes nothing. *)
Definition plain_order : Order :=
  {| scandir_order := λ _ _ l, l; set_iter := elements |}.

(** [sorted(s)] for a set of strings. *)
Definition sorted (o : Order) (s : gset string) : list string :=
  merge_sort String.le (set_iter o s).

(** ** Module constants *)

Definition valid_dirs : list string :=
  ["/usr/lib"; "/usr/lib64"; "/usr/lib32"; "/lib"; "/lib32"; "/lib64"].

(** [reg], the pattern for shared objects: any text, then
    [ ELF 64-bit LSB shared object,] or [ ELF 32-bit LSB shared object,].
    It is used through [reg.match]: the match is anchored at the start
    only and the leading wildcard stays on the first line, so it succeeds
    exactly when that line holds one of the two literal texts. *)
Definition reg (mg : string) : bool :=
  let l := Py.first_line mg in
  Py.contains " ELF 64-bit LSB shared object," l ||
  Py.contains " ELF 32-bit LSB shared object," l.

(** [valid_dyn], the pattern for all dynamic binaries: as [reg], with
    [executable,] allowed in the place of [shared object,]. *)
Definition valid_dyn (mg : string) : bool :=
  let l := Py.first_line mg in
  Py.contains " ELF 64-bit LSB shared object," l ||
  Py.contains " ELF 64-bit LSB executable," l ||
  Py.contains " ELF 32-bit LSB shared object," l ||
  Py.contains " ELF 32-bit LSB executable," l.

(** [shared_lib], the pattern for a needed library: any text, the literal
    [shared_lib_open], a group of any text, a closing bracket, any text.
    The function is [shared_lib.match(line).group(1)], or [None] when
    there is no match.  Both wildcards are greedy: the leading one settles
    on the last [shared_lib_open] that still has a closing bracket after
    it, the group then runs up to the last closing bracket of the line. *)
Definition shared_lib_open : string := "Shared library: [".

Fixpoint shared_lib_from (s : string) : option string :=
  match s with
  | "" => None
  | String _ s' =>
      match shared_lib_from s' with
      | Some g => Some g
      | None =>
          if String.prefix shared_lib_open s
          then Py.before_last Py.rbracket (Py.drop (String.length shared_lib_open) s)
          else None
      end
  end.

Definition shared_lib (line : string) : option string :=
  shared_lib_from (Py.first_line line).

Definition wanted_symbol_types : list string := ["A"; "T"].

Definition ignored_symbols : list string :=
  ["__bss_start"; "_edata"; "_end"; "_fini"; "_init"].

Example shared_lib_needed :
  shared_lib "0x0000000000000001 (NEEDED)             Shared library: [libc.so.6]"
  = Some "libc.so.6".
Proof. reflexivity. Qed.

Example shared_lib_greedy :
  shared_lib "Shared library: [a] Shared library: [b] c]" = Some "b] c"
  ∧ shared_lib "Shared library: [a] Shared library: [b" = Some "a"
  ∧ shared_lib "Shared library: a]" = None.
Proof. repeat split; reflexivity. Qed.

Example reg_needs_prefix :
  reg "/w/libz.so.1: ELF 64-bit LSB shared object, x86-64" = true
  ∧ reg "ELF 64-bit LSB shared object, x86-64" = false
  ∧ reg "/w/tool: ELF 64-bit LSB executable, x86-64" = false
  ∧ valid_dyn "/w/tool: ELF 64-bit LSB executable, x86-64" = true.
Proof. repeat split; reflexivity. Qed.

(** ** Binary classifier and ELF fact extractor *)

Section inspection.
Context (env : Env).

(** [get_output(cmd)]: the command's output, or [None] after the
    exception of [subprocess.getoutput] was caught and printed.  It
    never raises. *)
Definition get_output (cmd : string) : option string :=
  subprocess_getoutput env cmd.

Definition quoted (path : string) : string :=
  Py.str1 Py.dquote +:+ path +:+ Py.str1 Py.dquote.

(** [if not x] for a value that is a [str] or [None]. *)
Definition falsy (x : option string) : bool :=
  match x with
  | None | Some "" => true
  | Some _ => false
  end.

(** [get_soname(path)].  With [None] for the output, the membership
    test raises a [TypeError]; with fewer than two fields, the index
    raises an [IndexError]; the [except] turns both into [None]. *)
Definition get_soname (path : string) : option string :=
  let cmd := "objdump -p " +:+ quoted path +:+ "|grep SONAME" in
  match get_output cmd with
  | None => None
  | Some line =>
      if negb (Py.contains "SONAME" line) then None
      else Py.split (Py.strip line) !! 1%nat
  end.

(** One turn of the loop of [get_shared_dependencies]. *)
Definition shared_dependency_line (ret : gset string) (line : string) : gset string :=
  match shared_lib (Py.strip line) with
  | None => ret
  | Some name => ret ∪ {[name]}
  end.

(** [get_shared_dependencies(path)].  Nothing guards the [split] of the
    output: with [None] it raises an [AttributeError]. *)
Definition get_shared_dependencies (path : string) : res (gset string) :=
  let cmd := "readelf -d " +:+ path in
  match get_output cmd with
  | None => Raise (Uncaught AttributeError)
  | Some out => Ok (foldl shared_dependency_line ∅ (Py.split_on Py.nl out))
  end.

(** [get_file_magic(path)]: the first line of the output of [file],
    stripped; [None] when [get_output] gave [None] (the
    [AttributeError] of the [split] is caught). *)
Definition get_file_magic (path : string) : option string :=
  let cmd := "file " +:+ quoted path in
  match get_output cmd with
  | None => None
  | Some out => Some (Py.strip (Py.first_line out))
  end.

Definition is_dynamic_binary (path : string) : bool :=
  if negb (os_path_exists env path) || negb (os_path_isfile env path) then false
  else
    let mg := get_file_magic path in
    if falsy mg then false
    else if valid_dyn (default "" mg) then true
    else false.

Definition is_file_valid (path : string) : bool :=
  if negb (os_path_exists env path) || os_path_islink env path then false
  else
    let mg := get_file_magic path in
    if falsy mg then false
    else if reg (default "" mg) then true
    else false.

Definition is_32bit (path : string) : bool :=
  let mg := get_file_magic path in
  if falsy mg then false
  else if Py.contains "ELF 32-bit" (default "" mg) then true
  else false.

(** One turn of the loop of [dump_symbols]. *)
Definition dump_symbols_line (ret : gset string) (line : string) : gset string :=
  match Py.split (Py.strip line) with
  | [_; sym_type; sym_id] =>
      if negb (bool_decide (sym_type ∈ wanted_symbol_types)) then ret
      else if bool_decide (sym_id ∈ ignored_symbols) then ret
      else ret ∪ {[sym_id]}
  | _ => ret
  end.

(** [dump_symbols(path)].  The [try] around [get_output] never sees an
    exception, since [get_output] catches them all; with [None] for
    [lines] the [split] after it raises an [AttributeError]. *)
Definition dump_symbols (path : string) : res (gset string) :=
  let cmd := "nm --defined-only -g --dynamic " +:+ quoted path in
  match get_output cmd with
  | None => Raise (Uncaught AttributeError)
  | Some lines => Ok (foldl dump_symbols_line ∅ (Py.split_on Py.nl lines))
  end.

End inspection.

(** ** Walking the tree *)

(** [os.walk(top)], top-down, links to directories not followed: the
    triples (root, dirs, files) in the order they are yielded.  Each
    directory hands out its entries in the order [scandir_order] gives
    them.  [walk_dirent] is the generator entered at one entry. *)
Fixpoint walk_dirent (o : Order) (top : string) (d : dirent)
    : list (string * list string * list string) :=
  match d with
  | File | DirLink => []
  | Dir entries =>
      let scanned :=
        scandir_order o top _
          (map (λ e : string * dirent,
                  (e.1, dirent_is_dir e.2,
                   walk_dirent o (Py.path_join top e.1) e.2)) entries) in
      let dirs := (λ x, x.1.1) <$> filter (λ x, x.1.2 = true) scanned in
      let nondirs := (λ x, x.1.1) <$> filter (λ x, x.1.2 = false) scanned in
      (top, dirs, nondirs) :: (scanned ≫= λ x, x.2)
  end.

Definition os_walk (o : Order) (top : string) (entries : list (string * dirent))
    : list (string * list string * list string) :=
  walk_dirent o top (Dir entries).

(** The paths [os.path.join(root, file)] the two nested loops of the
    dependency pass run over, in order. *)
Definition walk_files (o : Order) (top : string) (entries : list (string * dirent))
    : list string :=
  os_walk o top entries ≫= λ x, Py.path_join x.1.1 <$> x.2.

Example os_walk_small :
  os_walk plain_order "/r"
    [("usr", Dir [("bin", Dir [("tool", File)]); ("lib", Dir [("libz.so.1", File); ("libz.so", File)])]);
     ("lib", DirLink); ("README", File)]
  = [("/r", ["usr"; "lib"], ["README"]);
     ("/r/usr", ["bin"; "lib"], []);
     ("/r/usr/bin", [], ["tool"]);
     ("/r/usr/lib", [], ["libz.so.1"; "libz.so"])].
Proof. reflexivity. Qed.

(** ** Tree aggregator and report writer *)

(** An ABI report: [dict] from SONAME ([str], or [None] when the library
    declares none) to the [set] of its symbols. *)
Abbreviation report := (gmap (option string) (gset string)).

(** The files of the target directory, by path. *)
Abbreviation files := (gmap string string).

(** Code that reads and writes files and may raise. *)
Definition run (A : Type) : Type := files → files * res A.

Global Instance run_ret : MRet run := λ A a fs, (fs, Ok a).
Global Instance run_bind : MBind run := λ A B f m fs,
  match m fs with
  | (fs', Ok a) => f a fs'
  | (fs', Raise e) => (fs', Raise e)
  end.

Definition lift {A} (r : res A) : run A := λ fs, (fs, r).
Definition update (f : files → files) : run unit := λ fs, (f fs, Ok ()).

Definition concat_lines (lines : list string) : string :=
  foldr String.app "" lines.

(** [purge_tree(tree)], given whether the tree exists and whether
    [shutil.rmtree] goes through. *)
Definition purge_tree (tree_exists rmtree_ok : bool) : res unit :=
  if negb tree_exists then Ok ()
  else if rmtree_ok then Ok ()
  else Raise (SystemExit 1).

(** [truncate_file(path)]: a file that is not there is left alone. *)
Definition truncate_file (path : string) (fs : files) : files :=
  match fs !! path with
  | None => fs
  | Some _ => <[path := ""]> fs
  end.

Section aggregator.
Context (env : Env) (o : Order).

(** *** The dependency pass

    [get_all_native_dependencies] and [get_all_32bit_dependencies] are
    the same text but for one test: the first skips a file when
    [is_32bit(fpath)], the second when [not is_32bit(fpath)].
    [want32] tells which of the two is meant. *)

(** The body of the two nested loops over [os.walk(path)]; the state is
    ([sonames], [examine]). *)
Definition walk_step (want32 : bool) (st : gset string * gset string) (fpath : string)
    : gset string * gset string :=
  let '(sonames, examine) := st in
  if negb (is_dynamic_binary env fpath) then st
  else if (if want32 then negb (is_32bit env fpath) else is_32bit env fpath) then st
  else
    let sonames :=
      if is_file_valid env fpath then
        match get_soname env fpath with
        | Some soname => sonames ∪ {[soname]}
        | None => sonames
        end
      else sonames in
    let examine :=
      if is_dynamic_binary env fpath then examine ∪ {[fpath]} else examine in
    (sonames, examine).

Definition walk_sets (want32 : bool) (path : string) : gset string * gset string :=
  foldl (walk_step want32) (∅, ∅) (walk_files o path (install_tree env)).

(** The body of the loop over [examine]. *)
Definition dependency_step (sonames deps : gset string) (path : string)
    : res (gset string) :=
  current_deps ← get_shared_dependencies env path;
  Ok (deps ∪ filter (λ s, s ∉ sonames) current_deps).

Definition get_all_dependencies (want32 : bool) (path : string) : res (gset string) :=
  let '(sonames, examine) := walk_sets want32 path in
  for_each (dependency_step sonames) (set_iter o examine) ∅.

Definition get_all_native_dependencies : string → res (gset string) :=
  get_all_dependencies false.

Definition get_all_32bit_dependencies : string → res (gset string) :=
  get_all_dependencies true.

(** *** The library scan of [examine_abi] *)

Definition extract_dir : string :=
  Py.path_join (download_path env) "__extraction".

Definition source_dir : string :=
  Py.path_join extract_dir "install".

(** The body of the loop over [valid_dirs].  The entries [os.listdir]
    returns are plain names, on which [os.path.basename] is the
    identity. *)
Definition collect_dir (collected_files : gset string) (check_path : string)
    : gset string :=
  let check_path :=
    match check_path with
    | String "/" rest => rest
    | _ => check_path
    end in
  let dirn := Py.path_join source_dir check_path in
  if negb (os_path_isdir env dirn) then collected_files
  else
    foldl (λ collected file,
             let clean_path := Py.path_join dirn file in
             if negb (is_file_valid env clean_path) then collected
             else collected ∪ {[clean_path]})
      collected_files (scandir_order o dirn _ (os_listdir env dirn)).

Definition collected_files : gset string :=
  foldl collect_dir ∅ valid_dirs.

(** [if symbols and len(symbols) > 0: ... tgt[soname].update(symbols)] *)
Definition merge_symbols (tgt : report) (soname : option string) (symbols : gset string)
    : report :=
  if bool_decide (symbols = ∅) then tgt
  else <[soname := default ∅ (tgt !! soname) ∪ symbols]> tgt.

(** The body of the loop over [sorted(collected_files)]; the state is
    ([abi_report], [abi_report32]).  A library without SONAME gets a
    diagnostic from [util.print_fatal], which only prints: the
    [sys.exit] after it is commented out. *)
Definition examine_library (st : report * report) (library : string)
    : res (report * report) :=
  let soname := get_soname env library in
  symbols ← dump_symbols env library;
  if is_32bit env library
  then Ok (st.1, merge_symbols st.2 soname symbols)
  else Ok (merge_symbols st.1 soname symbols, st.2).

Definition abi_reports : res (report * report) :=
  for_each examine_library (sorted o collected_files) (∅, ∅).

(** *** Writing *)

(** [sorted(abi_report.keys())].  Python 3 orders [str] against [str]
    only: sorting a [None] together with a string raises a
    [TypeError]; a single key is returned without any comparison. *)
Definition string_keys (r : report) : list string :=
  omap id (elements (dom r)).

Definition sorted_keys (r : report) : res (list (option string)) :=
  match r !! None with
  | None => Ok (Some <$> merge_sort String.le (string_keys r))
  | Some _ =>
      match string_keys r with
      | [] => Ok [None]
      | _ :: _ => Raise (Uncaught TypeError)
      end
  end.

(** The lines written for the keys [ks], in order. *)
Definition report_lines (r : report) (ks : list (option string)) : list string :=
  ks ≫= λ soname,
    (λ symbol, Py.format_opt soname +:+ ":" +:+ symbol +:+ Py.str1 Py.nl)
      <$> sorted o (default ∅ (r !! soname)).

(** One of the two symbol reports: opening the file for writing leaves an empty
    file at once; the lines follow when the keys are sorted. *)
Definition write_abi_report (path : string) (r : report) : run unit :=
  if bool_decide (r = ∅) then update (truncate_file path)
  else
    _ ← update (<[path := ""]>);
    ks ← lift (sorted_keys r);
    update (<[path := concat_lines (report_lines r ks)]>).

(** One of the two dependency reports. *)
Definition write_used_libs (path : string) (deps : gset string) : run unit :=
  if bool_decide (deps = ∅) then update (truncate_file path)
  else
    update (<[path := concat_lines ((λ soname, soname +:+ Py.str1 Py.nl) <$> sorted o deps)]>).

Definition report_path (name : string) : string :=
  Py.path_join (download_path env) name.

(** From [report_file = ...] (after the library scan) to the last
    [truncate_file]: the Write step, with the dependency pass in the
    middle of it as in the source. *)
Definition write_reports (reports : report * report) : run unit :=
  _ ← write_abi_report (report_path "abi_symbols") reports.1;
  _ ← write_abi_report (report_path "abi_symbols32") reports.2;
  lib_deps ← lift (get_all_native_dependencies source_dir);
  lib_deps32 ← lift (get_all_32bit_dependencies source_dir);
  _ ← write_used_libs (report_path "abi_used_libs") lib_deps;
  write_used_libs (report_path "abi_used_libs32") lib_deps32.

(** [examine_abi(download_path)] up to the library scan: the checks on
    the target directory and the unpacking.  A package that fails to
    unpack is only reported ([util.print_fatal] prints); what was
    unpacked is the tree of [env]. *)
Definition prepare : res unit :=
  if negb (download_exists env) then Raise (SystemExit 1)
  else
    let eopkgs :=
      filter (λ item, Py.endswith ".eopkg" item = true)
        (scandir_order o (download_path env) _ (download_listing env)) in
    if bool_decide (length eopkgs = 0%nat) then Raise (SystemExit 1)
    else
      _ ← purge_tree (extract_dir_exists env) (rmtree_before_ok env);
      _ ← (if makedirs_ok env then Ok () else Raise (SystemExit 1));
      if chdir_install_ok env then Ok () else Raise (Uncaught OSError).

(** [examine_abi(download_path)] *)
Definition examine_abi : run unit :=
  _ ← lift prepare;
  reports ← lift abi_reports;
  _ ← write_reports reports;
  lift (purge_tree true (rmtree_after_ok env)).

End aggregator.

(** ** Concrete trees *)

Module Sample.

(** Answers of the tools, by command; a command not listed prints
    nothing.  [None] for an answer: the call raised. *)
Fixpoint assoc {V} (table : list (string * V)) (key : string) : option V :=
  match table with
  | [] => None
  | (k, v) :: table' => if decide (k = key) then Some v else assoc table' key
  end.

Definition answers (table : list (string * option string)) (cmd : string)
    : option string :=
  default (Some "") (assoc table cmd).

Definition file_cmd (path : string) : string := "file " +:+ quoted path.
Definition objdump_cmd (path : string) : string :=
  "objdump -p " +:+ quoted path +:+ "|grep SONAME".
Definition nm_cmd (path : string) : string :=
  "nm --defined-only -g --dynamic " +:+ quoted path.
Definition readelf_cmd (path : string) : string := "readelf -d " +:+ path.

Definition lines (ls : list string) : string :=
  foldr (λ l acc, match acc with "" => l | _ => l +:+ Py.str1 Py.nl +:+ acc end) "" ls.

(** A target directory [/w] holding [pkg.eopkg], unpacked without
    incident into regular files [regular] (links: [links]), with the
    library directories [libdirs] and the tree [tree]. *)
Definition env_of (regular links : list string)
    (libdirs : list (string * list string))
    (tree : list (string * dirent))
    (table : list (string * option string)) : Env :=
  {| download_path := "/w";
     download_exists := true;
     download_listing := ["pkg.eopkg"];
     extract_dir_exists := false;
     rmtree_before_ok := true;
     makedirs_ok := true;
     chdir_install_ok := true;
     rmtree_after_ok := true;
     os_path_exists := λ p, bool_decide (p ∈ regular ++ links);
     os_path_isfile := λ p, bool_decide (p ∈ regular ++ links);
     os_path_islink := λ p, bool_decide (p ∈ links);
     os_path_isdir := λ p, bool_decide (p ∈ libdirs.*1);
     os_listdir := λ p, default [] (assoc libdirs p);
     install_tree := tree;
     subprocess_getoutput := answers table |}.

Definition root : string := "/w/__extraction/install".

(** Scenario B of the specification: one 64-bit library, SONAME
    [libfoo.so.1], exporting [foo] (T), [bar] (A) and [_init] (T). *)
Definition libfoo : string := root +:+ "/usr/lib64/libfoo.so.1".

Definition scenario_b : Env :=
  env_of [libfoo] []
    [(root +:+ "/usr/lib64", ["libfoo.so.1"])]
    [("usr", Dir [("lib64", Dir [("libfoo.so.1", File)])])]
    [(file_cmd libfoo,
      Some (libfoo +:+ ": ELF 64-bit LSB shared object, x86-64, version 1 (SYSV)"));
     (objdump_cmd libfoo, Some "  SONAME               libfoo.so.1");
     (nm_cmd libfoo,
      Some (lines ["0000000000001100 T foo"; "0000000000004010 A bar";
                   "0000000000001000 T _init"; "0000000000004020 B counter"]));
     (readelf_cmd libfoo,
      Some (lines ["Dynamic section at offset 0x2e20 contains 24 entries:";
                   " 0x0000000000000001 (NEEDED)             Shared library: [libc.so.6]";
                   " 0x000000000000000e (SONAME)             Library soname: [libfoo.so.1]"]))].

End Sample.

(** * Properties *)

(** ** The classifier *)

Lemma falsy_false_inv (x : option string) :
  falsy x = false → ∃ mg, x = Some mg ∧ mg ≠ "".
Proof. destruct x as [[|c s]|]; simpl; intros ?; try done. eauto. Qed.

Lemma is_file_valid_true env path :
  is_file_valid env path = true ↔
  os_path_exists env path = true ∧ os_path_islink env path = false ∧
  ∃ mg, get_file_magic env path = Some mg ∧ mg ≠ "" ∧ reg mg = true.
Proof.
  unfold is_file_valid.
  destruct (os_path_exists env path), (os_path_islink env path); simpl;
    try (split; [done | by intros (? & ? & ?)]).
  destruct (falsy (get_file_magic env path)) eqn:Hf.
  - split; [done|]. intros (_ & _ & mg & Hmg & Hne & _).
    rewrite Hmg in Hf. by destruct mg.
  - apply falsy_false_inv in Hf as (mg & -> & Hne). simpl.
    destruct (reg mg) eqn:Hreg.
    + split; [|done]. intros _. repeat split; eauto.
    + split; [done|]. intros (_ & _ & mg' & [= <-] & _ & ?). congruence.
Qed.

Lemma is_dynamic_binary_true env path :
  is_dynamic_binary env path = true ↔
  os_path_exists env path = true ∧ os_path_isfile env path = true ∧
  ∃ mg, get_file_magic env path = Some mg ∧ mg ≠ "" ∧ valid_dyn mg = true.
Proof.
  unfold is_dynamic_binary.
  destruct (os_path_exists env path), (os_path_isfile env path); simpl;
    try (split; [done | by intros (? & ? & ?)]).
  destruct (falsy (get_file_magic env path)) eqn:Hf.
  - split; [done|]. intros (_ & _ & mg & Hmg & Hne & _).
    rewrite Hmg in Hf. by destruct mg.
  - apply falsy_false_inv in Hf as (mg & -> & Hne). simpl.
    destruct (valid_dyn mg) eqn:Hreg.
    + split; [|done]. intros _. repeat split; eauto.
    + split; [done|]. intros (_ & _ & mg' & [= <-] & _ & ?). congruence.
Qed.

(** A shared object is a dynamic binary: [reg] is [valid_dyn] without
    the executables. *)
Lemma reg_valid_dyn mg : reg mg = true → valid_dyn mg = true.
Proof.
  unfold reg, valid_dyn. cbv zeta.
  intros [H | H]%orb_true_iff; rewrite H; simpl; by rewrite ?orb_true_r.
Qed.

Lemma is_file_valid_dynamic env path :
  is_file_valid env path = true → os_path_isfile env path = true →
  is_dynamic_binary env path = true.
Proof.
  rewrite is_file_valid_true, is_dynamic_binary_true.
  intros (? & _ & mg & ? & ? & ?%reg_valid_dyn) ?. eauto 10.
Qed.

(** C9.  [is_file_valid] answers [False] for every symbolic link,
    whatever [file] says about the file the link leads to, for every path
    that does not exist, and whenever the magic lookup fails; it answers
    [True] only for a path that exists, is no link, and whose magic
    matches [reg], the pattern of the ELF 32- or 64-bit LSB shared
    objects. *)
Theorem is_file_valid_rejects_links env path :
  (os_path_islink env path = true → is_file_valid env path = false) ∧
  (os_path_exists env path = false → is_file_valid env path = false) ∧
  (get_file_magic env path = None → is_file_valid env path = false) ∧
  (is_file_valid env path = true ↔
     os_path_exists env path = true ∧ os_path_islink env path = false ∧
     ∃ mg, get_file_magic env path = Some mg ∧ mg ≠ "" ∧ reg mg = true).
Proof.
  split_and!; [| | |apply is_file_valid_true];
    intros H; apply not_true_is_false; rewrite is_file_valid_true;
    intros (? & ? & mg & ? & _); congruence.
Qed.

(** ** The symbol filter *)

Lemma elem_of_foldl_union {A} (step : gset string → A → gset string)
    (contrib : A → gset string) (l : list A) (acc : gset string) x :
  (∀ acc a, step acc a = acc ∪ contrib a) →
  x ∈ foldl step acc l ↔ x ∈ acc ∨ ∃ a, a ∈ l ∧ x ∈ contrib a.
Proof.
  intros Hstep. revert acc. induction l as [|a l IH]; intros acc; simpl.
  - split; [auto|]. intros [?|(a & Ha & _)]; [done|]. by apply elem_of_nil in Ha.
  - rewrite IH, Hstep, elem_of_union. split.
    + intros [[?|?]|(b & ? & ?)]; [by left|right..].
      * exists a. split; [left|done].
      * exists b. split; [by right|done].
    + intros [?|(b & [->|?]%elem_of_cons & ?)]; [by left; left|by left; right|].
      right. by exists b.
Qed.

(** What one line of the output of [nm] adds to the result. *)
Definition line_symbols (line : string) : gset string :=
  match Py.split (Py.strip line) with
  | [_; sym_type; sym_id] =>
      if bool_decide (sym_type ∈ wanted_symbol_types ∧ sym_id ∉ ignored_symbols)
      then {[sym_id]} else ∅
  | _ => ∅
  end.

Lemma dump_symbols_line_union ret line :
  dump_symbols_line ret line = ret ∪ line_symbols line.
Proof.
  unfold dump_symbols_line, line_symbols.
  destruct (Py.split (Py.strip line)) as [|? [|ty [|sym [|??]]]];
    try set_solver.
  repeat case_bool_decide; simpl; try tauto; set_solver.
Qed.

Lemma elem_of_line_symbols sym line :
  sym ∈ line_symbols line ↔
  ∃ addr sym_type, Py.split (Py.strip line) = [addr; sym_type; sym] ∧
    sym_type ∈ wanted_symbol_types ∧ sym ∉ ignored_symbols.
Proof.
  unfold line_symbols.
  destruct (Py.split (Py.strip line)) as [|a [|ty [|id [|??]]]];
    try (split; [by intros ?%not_elem_of_empty | by intros (? & ? & ? & _)]).
  case_bool_decide as Hd.
  - rewrite elem_of_singleton. split.
    + intros ->. exists a, ty. tauto.
    + by intros (? & ? & [= _ _ ->] & _).
  - split; [by intros ?%not_elem_of_empty|].
    intros (? & ? & [= _ <- <-] & ? & ?). tauto.
Qed.

Lemma elem_of_dump_symbols env path syms sym :
  dump_symbols env path = Ok syms →
  sym ∈ syms ↔
  ∃ out line addr sym_type,
    get_output env ("nm --defined-only -g --dynamic " +:+ quoted path) = Some out ∧
    line ∈ Py.split_on Py.nl out ∧
    Py.split (Py.strip line) = [addr; sym_type; sym] ∧
    sym_type ∈ wanted_symbol_types ∧ sym ∉ ignored_symbols.
Proof.
  unfold dump_symbols.
  destruct (get_output env _) as [out|] eqn:Hout; [|done]. intros [= <-].
  rewrite (elem_of_foldl_union _ line_symbols) by apply dump_symbols_line_union.
  split.
  - intros [?%not_elem_of_empty|(line & ? & (a & ty & ?)%elem_of_line_symbols)]; [done|].
    exists out, line, a, ty. tauto.
  - intros (? & line & a & ty & [= <-] & ? & ?). right. exists line.
    split; [done|]. apply elem_of_line_symbols. eauto.
Qed.

(** ** Loops *)

Lemma for_each_app {A S} (f : S → A → res S) xs ys st :
  for_each f (xs ++ ys) st =
  match for_each f xs st with
  | Ok st' => for_each f ys st'
  | Raise e => Raise e
  end.
Proof.
  revert st. induction xs as [|x xs IH]; intros st; simpl; [done|].
  destruct (f st x); [apply IH|done].
Qed.

(** A loop whose body can only raise [e0] can only raise [e0]. *)
Lemma for_each_raise {A S} (f : S → A → res S) e0 xs st e :
  (∀ st x e, f st x = Raise e → e = e0) →
  for_each f xs st = Raise e → e = e0.
Proof.
  intros Hf. revert st. induction xs as [|x xs IH]; intros st; simpl; [done|].
  destruct (f st x) eqn:Hx; [apply IH|]. intros [= <-]. eauto.
Qed.


(** A loop goes through when its body goes through on every element. *)
Lemma for_each_total {A S} (f : S → A → res S) xs st :
  (∀ st x, x ∈ xs → ∃ st', f st x = Ok st') →
  ∃ st', for_each f xs st = Ok st'.
Proof.
  revert st. induction xs as [|x xs IH]; intros st Hf; simpl; [eauto|].
  destruct (Hf st x) as [st' ->]; [left|].
  apply IH. intros ???. apply Hf. by right.
Qed.

(** ** Sorting *)

Lemma plain_order_ok : order_ok plain_order.
Proof. by split. Qed.

Lemma sorted_Sorted o s : Sorted String.le (sorted o s).
Proof. apply (Sorted_merge_sort _). Qed.

Lemma sorted_perm o s : order_ok o → sorted o s ≡ₚ elements s.
Proof. intros [_ Hs]. unfold sorted. by rewrite merge_sort_Permutation. Qed.

Lemma elem_of_sorted o s x : order_ok o → x ∈ sorted o s ↔ x ∈ s.
Proof. intros Ho. by rewrite (sorted_perm o s Ho), elem_of_elements. Qed.

Lemma sorted_NoDup o s : order_ok o → NoDup (sorted o s).
Proof. intros Ho. rewrite (sorted_perm o s Ho). apply NoDup_elements. Qed.

(** [sorted] undoes the order of iteration. *)
Lemma sorted_order_irrel o o' s :
  order_ok o → order_ok o' → sorted o s = sorted o' s.
Proof.
  intros Ho Ho'. apply (Sorted_unique String.le); try apply sorted_Sorted.
  by rewrite !sorted_perm.
Qed.

(** ** The library scan *)

(** The symbols of one library, when [dump_symbols] returns. *)
Definition symbols_of (env : Env) (library : string) : gset string :=
  match dump_symbols env library with
  | Ok symbols => symbols
  | Raise _ => ∅
  end.

(** The entry of a report, [set()] for a key that is not there. *)
Definition entry (r : report) (soname : option string) : gset string :=
  default ∅ (r !! soname).

(** No key of the report holds an empty set. *)
Definition no_empty_entry (r : report) : Prop :=
  ∀ k s, r !! k = Some s → s ≠ ∅.

Lemma entry_merge_symbols tgt k symbols k' :
  entry (merge_symbols tgt k symbols) k' =
  if decide (k = k') then entry tgt k' ∪ symbols else entry tgt k'.
Proof.
  unfold merge_symbols, entry. case_bool_decide as He.
  - case_decide; [|done]. subst. set_solver.
  - rewrite lookup_insert. by repeat case_decide; subst.
Qed.

Lemma no_empty_entry_merge tgt k symbols :
  no_empty_entry tgt → no_empty_entry (merge_symbols tgt k symbols).
Proof.
  intros Hwf k' s. unfold merge_symbols. case_bool_decide as He; [apply Hwf|].
  rewrite lookup_insert. case_decide; [|apply Hwf].
  intros [= <-]. set_solver.
Qed.

Lemma no_empty_entry_None r k :
  no_empty_entry r → r !! k = None ↔ entry r k = ∅.
Proof.
  intros Hwf. unfold entry. destruct (r !! k) as [s|] eqn:Hk; simpl; [|done].
  split; [done|]. intros ->. by destruct (Hwf k ∅).
Qed.

(** What the libraries [ls] of one width declare under the key [k]. *)
Definition declared_under (env : Env) (ls : list string) (want32 : bool)
    (k : option string) (symbol : string) : Prop :=
  ∃ library, library ∈ ls ∧ is_32bit env library = want32 ∧
    get_soname env library = k ∧ symbol ∈ symbols_of env library.

Lemma examine_library_spec env st library st' :
  examine_library env st library = Ok st' →
  (∃ symbols, dump_symbols env library = Ok symbols) ∧
  (no_empty_entry st.1 → no_empty_entry st'.1) ∧
  (no_empty_entry st.2 → no_empty_entry st'.2) ∧
  ∀ k x,
    (x ∈ entry st'.1 k ↔ x ∈ entry st.1 k ∨ declared_under env [library] false k x) ∧
    (x ∈ entry st'.2 k ↔ x ∈ entry st.2 k ∨ declared_under env [library] true k x).
Proof.
  unfold examine_library, declared_under, symbols_of.
  destruct (dump_symbols env library) as [symbols|] eqn:Hd; [|done]. simpl.
  destruct (is_32bit env library) eqn:H32; intros [= <-]; simpl;
    (split; [eauto|]); (split_and!; auto using no_empty_entry_merge);
    intros k x; rewrite entry_merge_symbols; setoid_rewrite list_elem_of_singleton.
  all: split; repeat case_decide; rewrite ?elem_of_union;
    (split;
     [ intros; destruct_or?; auto; right; exists library; by rewrite Hd
     | intros [?|(? & -> & ? & ? & Hx)]; [by auto|];
       rewrite Hd in Hx; try congruence; auto ]).
Qed.

Lemma scan_spec env ls st st' :
  for_each (examine_library env) ls st = Ok st' →
  (∀ library, library ∈ ls → ∃ symbols, dump_symbols env library = Ok symbols) ∧
  (no_empty_entry st.1 → no_empty_entry st'.1) ∧
  (no_empty_entry st.2 → no_empty_entry st'.2) ∧
  ∀ k x,
    (x ∈ entry st'.1 k ↔ x ∈ entry st.1 k ∨ declared_under env ls false k x) ∧
    (x ∈ entry st'.2 k ↔ x ∈ entry st.2 k ∨ declared_under env ls true k x).
Proof.
  revert st. induction ls as [|l ls IH]; intros st; simpl.
  - intros [= <-]. unfold declared_under. split_and!; try done.
    + by intros ? ?%elem_of_nil.
    + intros k x. setoid_rewrite elem_of_nil. naive_solver.
  - destruct (examine_library env st l) as [st1|] eqn:Hl; [|done].
    intros Hrest. apply examine_library_spec in Hl as (Hd & Hw1 & Hw2 & Hl).
    apply IH in Hrest as (Hds & Hw1' & Hw2' & Hrest). split_and!; auto.
    + by intros ? [->|?]%elem_of_cons; auto.
    + intros k x. destruct (Hl k x) as [Hl1 Hl2], (Hrest k x) as [-> ->].
      rewrite Hl1, Hl2. unfold declared_under.
      setoid_rewrite elem_of_cons. setoid_rewrite elem_of_nil.
      naive_solver.
Qed.

(** ** The dependency pass *)

(** What one file adds to [sonames] and to [examine]. *)
Definition provides (env : Env) (want32 : bool) (fpath : string) : gset string :=
  if is_dynamic_binary env fpath && bool_decide (is_32bit env fpath = want32)
     && is_file_valid env fpath
  then match get_soname env fpath with
       | Some soname => {[soname]}
       | None => ∅
       end
  else ∅.

Definition examined (env : Env) (want32 : bool) (fpath : string) : gset string :=
  if is_dynamic_binary env fpath && bool_decide (is_32bit env fpath = want32)
  then {[fpath]} else ∅.

Lemma walk_step_union env want32 st fpath :
  walk_step env want32 st fpath =
  (st.1 ∪ provides env want32 fpath, st.2 ∪ examined env want32 fpath).
Proof.
  unfold walk_step, provides, examined. destruct st as [sonames examine]. simpl.
  destruct (is_dynamic_binary env fpath); simpl; [|f_equal; set_solver].
  destruct want32, (is_32bit env fpath); simpl; try (f_equal; set_solver);
    destruct (is_file_valid env fpath); try done;
    destruct (get_soname env fpath); f_equal; set_solver.
Qed.

Lemma foldl_walk_step env want32 fpaths st :
  foldl (walk_step env want32) st fpaths =
  (foldl (λ acc f, acc ∪ provides env want32 f) st.1 fpaths,
   foldl (λ acc f, acc ∪ examined env want32 f) st.2 fpaths).
Proof.
  revert st. induction fpaths as [|f fpaths IH]; intros st; simpl.
  - by destruct st.
  - by rewrite IH, walk_step_union.
Qed.

Lemma elem_of_walk_sonames env o want32 path soname :
  soname ∈ (walk_sets env o want32 path).1 ↔
  ∃ fpath, fpath ∈ walk_files o path (install_tree env) ∧
    is_dynamic_binary env fpath = true ∧ is_32bit env fpath = want32 ∧
    is_file_valid env fpath = true ∧ get_soname env fpath = Some soname.
Proof.
  unfold walk_sets. rewrite foldl_walk_step. simpl.
  rewrite (elem_of_foldl_union _ (provides env want32)) by done.
  unfold provides. split.
  - intros [?%not_elem_of_empty|(f & Hf & Hs)]; [done|]. exists f.
    destruct (is_dynamic_binary env f); [|by apply not_elem_of_empty in Hs].
    case_bool_decide; [|by apply not_elem_of_empty in Hs].
    destruct (is_file_valid env f); [|by apply not_elem_of_empty in Hs].
    simpl in Hs. destruct (get_soname env f); set_solver.
  - intros (f & Hf & Hd & H32 & Hv & Hs). right. exists f. split; [done|].
    rewrite Hd, bool_decide_eq_true_2, Hv, Hs by done. set_solver.
Qed.

Lemma elem_of_walk_examine env o want32 path fpath :
  fpath ∈ (walk_sets env o want32 path).2 ↔
  fpath ∈ walk_files o path (install_tree env) ∧
  is_dynamic_binary env fpath = true ∧ is_32bit env fpath = want32.
Proof.
  unfold walk_sets. rewrite foldl_walk_step. simpl.
  rewrite (elem_of_foldl_union _ (examined env want32)) by done.
  unfold examined. split.
  - intros [?%not_elem_of_empty|(f & Hf & Hs)]; [done|].
    destruct (is_dynamic_binary env f) eqn:?; [|by apply not_elem_of_empty in Hs].
    case_bool_decide; [|by apply not_elem_of_empty in Hs].
    apply elem_of_singleton in Hs as ->. done.
  - intros (Hf & Hd & H32). right. exists fpath. split; [done|].
    rewrite Hd, bool_decide_eq_true_2 by done. set_solver.
Qed.

(** The declared dependencies of one file, when the query returns. *)
Definition dependencies_of (env : Env) (path : string) : gset string :=
  match get_shared_dependencies env path with
  | Ok deps => deps
  | Raise _ => ∅
  end.

Lemma get_shared_dependencies_raise env path e :
  get_shared_dependencies env path = Raise e → e = Uncaught AttributeError.
Proof.
  unfold get_shared_dependencies. destruct (get_output env _); [done|]. congruence.
Qed.

Lemma dependency_step_raise env sonames deps path e :
  dependency_step env sonames deps path = Raise e → e = Uncaught AttributeError.
Proof.
  unfold dependency_step. destruct (get_shared_dependencies env path) eqn:Hd; [done|].
  simpl. intros [= <-]. by eapply get_shared_dependencies_raise.
Qed.

Lemma dependency_loop_spec env sonames paths deps0 deps :
  for_each (dependency_step env sonames) paths deps0 = Ok deps →
  deps = deps0 ∪ (⋃ (dependencies_of env <$> paths)) ∖ sonames.
Proof.
  revert deps0. induction paths as [|p paths IH]; intros deps0; simpl.
  - intros [= <-]. set_solver.
  - unfold dependency_step at 1, dependencies_of at 1.
    destruct (get_shared_dependencies env p) as [ds|]; [|done]. simpl.
    intros ->%IH. set_solver.
Qed.

Lemma dependency_loop_total env sonames paths deps0 :
  (∀ p, p ∈ paths → is_Some (get_output env ("readelf -d " +:+ p))) →
  ∃ deps, for_each (dependency_step env sonames) paths deps0 = Ok deps.
Proof.
  intros Hall. apply for_each_total. intros st p [out Hp]%Hall.
  unfold dependency_step, get_shared_dependencies. rewrite Hp. simpl. eauto.
Qed.

(** C2, as the code has it.  The set [sonames] that the dependency pass
    subtracts holds exactly the SONAMEs of the dynamic binaries of the
    wanted width that pass [is_file_valid]; a dynamic binary that fails
    that check (an executable, a symbolic link) gives no SONAME to it.
    [want32 = false] is [get_all_native_dependencies], [want32 = true]
    is [get_all_32bit_dependencies]. *)
Theorem provided_sonames_are_of_valid_libraries env o want32 path soname :
  soname ∈ (walk_sets env o want32 path).1 ↔
  ∃ fpath, fpath ∈ walk_files o path (install_tree env) ∧
    is_dynamic_binary env fpath = true ∧ is_32bit env fpath = want32 ∧
    is_file_valid env fpath = true ∧ get_soname env fpath = Some soname.
Proof. apply elem_of_walk_sonames. Qed.

(** C3.  When the dependency pass returns, its result is the union of
    the declared dependencies of the files in [examine], the dynamic
    binaries of the wanted width, minus the set [sonames]; no name of the
    report is the SONAME of a regular file of that width anywhere in the
    tree that passes [is_file_valid].  The pass returns whenever
    [readelf] answers for every file in [examine]. *)
Theorem dependency_report_is_difference env o (want32 : bool) path :
  order_ok o →
  let get_all :=
    if want32 then get_all_32bit_dependencies else get_all_native_dependencies in
  let sonames := (walk_sets env o want32 path).1 in
  let examine := (walk_sets env o want32 path).2 in
  (∀ fpath, fpath ∈ examine ↔
     fpath ∈ walk_files o path (install_tree env) ∧
     is_dynamic_binary env fpath = true ∧ is_32bit env fpath = want32) ∧
  (∀ deps, get_all env o path = Ok deps →
     deps = (⋃ (dependencies_of env <$> elements examine)) ∖ sonames ∧
     ∀ fpath soname,
       fpath ∈ walk_files o path (install_tree env) →
       os_path_isfile env fpath = true → is_file_valid env fpath = true →
       is_32bit env fpath = want32 → get_soname env fpath = Some soname →
       soname ∉ deps) ∧
  ((∀ p, p ∈ examine → is_Some (get_output env ("readelf -d " +:+ p))) →
   ∃ deps, get_all env o path = Ok deps).
Proof.
  intros Ho get_all sonames examine.
  assert (get_all env o path = get_all_dependencies env o want32 path) as ->
    by (by destruct want32).
  unfold get_all_dependencies. fold sonames examine.
  destruct (walk_sets env o want32 path) as [sn ex] eqn:Hw.
  simpl in sonames, examine. subst sonames examine. simpl.
  destruct Ho as [_ Hiter]. split_and!.
  - intros fpath. by rewrite <-(elem_of_walk_examine env o want32 path), Hw.
  - intros deps ->%dependency_loop_spec.
    assert (⋃ (dependencies_of env <$> set_iter o ex)
            = ⋃ (dependencies_of env <$> elements ex)) as Heq.
    { apply set_eq. intros x. rewrite !elem_of_union_list.
      by setoid_rewrite (Hiter ex). }
    rewrite Heq. split; [set_solver|].
    intros fpath soname Hin Hreg Hvalid H32 Hso.
    assert (soname ∈ sn); [|set_solver].
    change sn with (sn, ex).1. rewrite <-Hw. apply elem_of_walk_sonames.
    exists fpath. split_and!; auto using is_file_valid_dynamic.
  - intros Hall. apply dependency_loop_total.
    intros p Hp. apply Hall. by rewrite <-elem_of_elements, <-(Hiter ex).
Qed.

(** C7.  [get_shared_dependencies] raises when its query fails: with
    [None] from [get_output] the [split] of the output is an
    [AttributeError], which nothing catches. *)
Theorem get_shared_dependencies_raises_on_failure env path :
  get_output env ("readelf -d " +:+ path) = None →
  get_shared_dependencies env path = Raise (Uncaught AttributeError).
Proof. unfold get_shared_dependencies. by intros ->. Qed.

(** ** The Write step *)

Lemma run_bind_unfold {A B} (m : run A) (f : A → run B) fs :
  (m ≫= f) fs =
  match m fs with
  | (fs', Ok a) => f a fs'
  | (fs', Raise e) => (fs', Raise e)
  end.
Proof. done. Qed.

Lemma truncate_file_lookup path fs p :
  truncate_file path fs !! p =
  if decide (p = path) then (λ _, "") <$> fs !! p else fs !! p.
Proof.
  unfold truncate_file. case_decide as Hp.
  - subst. destruct (fs !! path) eqn:Hfs; [by rewrite lookup_insert_eq|by rewrite Hfs].
  - destruct (fs !! path); [by rewrite lookup_insert_ne|done].
Qed.

Lemma write_abi_report_other o path r fs fs' out p :
  write_abi_report o path r fs = (fs', out) → p ≠ path → fs' !! p = fs !! p.
Proof.
  unfold write_abi_report. case_bool_decide.
  - intros [= <- _] ?. rewrite truncate_file_lookup. by case_decide.
  - rewrite !run_bind_unfold. unfold update, lift. simpl.
    destruct (sorted_keys r); intros [= <- _] ?;
      by rewrite ?lookup_insert_ne.
Qed.

Lemma write_abi_report_empty o path fs :
  write_abi_report o path ∅ fs = (truncate_file path fs, Ok ()).
Proof. unfold write_abi_report. by rewrite bool_decide_eq_true_2. Qed.

Lemma write_used_libs_other o path deps fs p :
  p ≠ path → (write_used_libs o path deps fs).1 !! p = fs !! p.
Proof.
  intros ?. unfold write_used_libs, update. case_bool_decide; simpl.
  - rewrite truncate_file_lookup. by case_decide.
  - by rewrite lookup_insert_ne.
Qed.

Lemma write_used_libs_ok o path deps fs :
  (write_used_libs o path deps fs).2 = Ok ().
Proof. unfold write_used_libs, update. by case_bool_decide. Qed.

Lemma write_used_libs_empty o path fs :
  write_used_libs o path ∅ fs = (truncate_file path fs, Ok ()).
Proof. unfold write_used_libs. by rewrite bool_decide_eq_true_2. Qed.

(** The four report files are four different paths. *)
Lemma report_path_inj env a b :
  String.prefix "/" a = false → String.prefix "/" b = false →
  report_path env a = report_path env b → a = b.
Proof.
  unfold report_path, Py.path_join. intros -> ->.
  destruct (_ || _); intros H.
  - by apply (inj (String.app _)) in H.
  - by apply (inj (String.app _)), (inj (String.app _)) in H.
Qed.

Lemma report_path_ne env a b :
  String.prefix "/" a = false → String.prefix "/" b = false →
  a ≠ b → report_path env a ≠ report_path env b.
Proof. intros ?? Hne ?. apply Hne. by eapply report_path_inj. Qed.

(** The Write step, when it runs to its end, step by step. *)
Lemma write_reports_inv env o r r32 fs fs' :
  write_reports env o (r, r32) fs = (fs', Ok ()) →
  ∃ fs1 fs2 lib_deps lib_deps32,
    write_abi_report o (report_path env "abi_symbols") r fs = (fs1, Ok ()) ∧
    write_abi_report o (report_path env "abi_symbols32") r32 fs1 = (fs2, Ok ()) ∧
    get_all_native_dependencies env o (source_dir env) = Ok lib_deps ∧
    get_all_32bit_dependencies env o (source_dir env) = Ok lib_deps32 ∧
    fs' = (write_used_libs o (report_path env "abi_used_libs32") lib_deps32
             (write_used_libs o (report_path env "abi_used_libs") lib_deps fs2).1).1.
Proof.
  unfold write_reports. rewrite run_bind_unfold. simpl.
  destruct (write_abi_report o _ r fs) as [fs1 [[]|]] eqn:H1; [|done].
  rewrite run_bind_unfold.
  destruct (write_abi_report o _ r32 fs1) as [fs2 [[]|]] eqn:H2; [|done].
  rewrite run_bind_unfold. unfold lift at 1.
  destruct (get_all_native_dependencies env o (source_dir env)) as [d|] eqn:Hd; [|done].
  rewrite run_bind_unfold. unfold lift at 1.
  destruct (get_all_32bit_dependencies env o (source_dir env)) as [d32|] eqn:Hd32; [|done].
  rewrite run_bind_unfold.
  destruct (write_used_libs o _ d fs2) as [fs3 out3] eqn:H3.
  pose proof (write_used_libs_ok o (report_path env "abi_used_libs") d fs2) as Hok.
  rewrite H3 in Hok. simpl in Hok. subst out3.
  intros H4. exists fs1, fs2, d, d32. split_and!; try done.
  rewrite H3. simpl. by rewrite H4.
Qed.

(** The run as a whole stops where its Write step stops, and ends with
    the files the Write step left. *)
Lemma examine_abi_files env o fs r :
  prepare env o = Ok () → abi_reports env o = Ok r →
  (examine_abi env o fs).1 = (write_reports env o r fs).1.
Proof.
  intros Hp Hr. unfold examine_abi.
  rewrite run_bind_unfold. unfold lift at 1. rewrite Hp.
  rewrite run_bind_unfold. unfold lift at 1. rewrite Hr.
  rewrite run_bind_unfold.
  by destruct (write_reports env o r fs) as [fs' [[]|]].
Qed.

(** C1, as the code has it.  In a run whose Write step runs to its end,
    an empty report leaves its file with zero length when a file of that
    name was there before the run, and leaves no file when none was:
    [truncate_file] returns at once for a path that does not exist. *)
Theorem empty_report_truncates_existing_file env o fs fs' r r32 :
  prepare env o = Ok () →
  abi_reports env o = Ok (r, r32) →
  write_reports env o (r, r32) fs = (fs', Ok ()) →
  (examine_abi env o fs).1 = fs' ∧
  ∃ lib_deps lib_deps32,
    get_all_native_dependencies env o (source_dir env) = Ok lib_deps ∧
    get_all_32bit_dependencies env o (source_dir env) = Ok lib_deps32 ∧
    (r = ∅ → fs' !! report_path env "abi_symbols"
             = (λ _, "") <$> fs !! report_path env "abi_symbols") ∧
    (r32 = ∅ → fs' !! report_path env "abi_symbols32"
               = (λ _, "") <$> fs !! report_path env "abi_symbols32") ∧
    (lib_deps = ∅ → fs' !! report_path env "abi_used_libs"
                    = (λ _, "") <$> fs !! report_path env "abi_used_libs") ∧
    (lib_deps32 = ∅ → fs' !! report_path env "abi_used_libs32"
                      = (λ _, "") <$> fs !! report_path env "abi_used_libs32").
Proof.
  intros Hp Hr Hw. split.
  { by rewrite (examine_abi_files env o fs (r, r32)), Hw. }
  apply write_reports_inv in Hw as (fs1 & fs2 & d & d32 & H1 & H2 & Hd & Hd32 & ->).
  exists d, d32. split_and!; try done.
  - intros ->. rewrite write_abi_report_empty in H1. injection H1 as <-.
    rewrite !write_used_libs_other by (by apply report_path_ne).
    rewrite (write_abi_report_other _ _ _ _ _ _ _ H2) by (by apply report_path_ne).
    rewrite truncate_file_lookup. by case_decide.
  - intros ->. rewrite write_abi_report_empty in H2. injection H2 as <-.
    rewrite !write_used_libs_other by (by apply report_path_ne).
    rewrite truncate_file_lookup. case_decide; [|done].
    by rewrite (write_abi_report_other _ _ _ _ _ _ _ H1) by (by apply report_path_ne).
  - intros ->. rewrite write_used_libs_other by (by apply report_path_ne).
    rewrite write_used_libs_empty. simpl.
    rewrite truncate_file_lookup. case_decide; [|done].
    rewrite (write_abi_report_other _ _ _ _ _ _ _ H2) by (by apply report_path_ne).
    by rewrite (write_abi_report_other _ _ _ _ _ _ _ H1) by (by apply report_path_ne).
  - intros ->. rewrite write_used_libs_empty. simpl.
    rewrite truncate_file_lookup. case_decide; [|done].
    rewrite write_used_libs_other by (by apply report_path_ne).
    rewrite (write_abi_report_other _ _ _ _ _ _ _ H2) by (by apply report_path_ne).
    by rewrite (write_abi_report_other _ _ _ _ _ _ _ H1) by (by apply report_path_ne).
Qed.

(** ** The reports of the library scan *)

Lemma entry_empty k : entry ∅ k = ∅.
Proof. unfold entry. by rewrite lookup_empty. Qed.

Lemma abi_reports_spec env o r r32 :
  order_ok o → abi_reports env o = Ok (r, r32) →
  (∀ library, library ∈ collected_files env o →
     ∃ symbols, dump_symbols env library = Ok symbols) ∧
  no_empty_entry r ∧ no_empty_entry r32 ∧
  ∀ k x,
    (x ∈ entry r k ↔ declared_under env (elements (collected_files env o)) false k x) ∧
    (x ∈ entry r32 k ↔ declared_under env (elements (collected_files env o)) true k x).
Proof.
  intros Ho (Hd & Hw & Hw32 & Hs)%scan_spec. simpl in *. split_and!.
  - intros l Hl. apply Hd. by apply elem_of_sorted.
  - by apply Hw.
  - by apply Hw32.
  - intros k x. destruct (Hs k x) as [-> ->]. rewrite !entry_empty.
    unfold declared_under.
    setoid_rewrite (elem_of_sorted o _ _ Ho). setoid_rewrite elem_of_elements.
    set_solver.
Qed.

Lemma elem_of_string_keys (r : report) name :
  name ∈ string_keys r ↔ is_Some (r !! Some name).
Proof.
  unfold string_keys. rewrite list_elem_of_omap. setoid_rewrite elem_of_elements.
  setoid_rewrite elem_of_dom. split.
  - intros (k & ? & Hk). unfold id in Hk. by subst.
  - intros ?. by exists (Some name).
Qed.

(** The keys [sorted_keys] returns are the keys of the report. *)
Lemma elem_of_sorted_keys (r : report) ks k :
  sorted_keys r = Ok ks → k ∈ ks ↔ is_Some (r !! k).
Proof.
  unfold sorted_keys. destruct (r !! None) as [s|] eqn:Hnone.
  - destruct (string_keys r) as [|n ns] eqn:Hkeys; [|done]. intros [= <-].
    rewrite list_elem_of_singleton. split; [intros ->; by rewrite Hnone|].
    intros Hk. destruct k as [name|]; [|done].
    apply elem_of_string_keys in Hk. rewrite Hkeys in Hk.
    by apply elem_of_nil in Hk.
  - intros [= <-]. rewrite list_elem_of_fmap.
    setoid_rewrite merge_sort_Permutation. setoid_rewrite elem_of_string_keys.
    split; [by intros (name & -> & ?)|].
    intros Hk. destruct k as [name|]; [eauto|].
    rewrite Hnone in Hk. by destruct Hk.
Qed.

Lemma write_abi_report_content (o : Order) (path : string) (r : report) fs fs' :
  r ≠ ∅ → write_abi_report o path r fs = (fs', Ok ()) →
  ∃ ks, sorted_keys r = Ok ks ∧
    fs' !! path = Some (concat_lines (report_lines o r ks)).
Proof.
  intros Hr. unfold write_abi_report. rewrite bool_decide_eq_false_2 by done.
  rewrite !run_bind_unfold. unfold update, lift. simpl.
  destruct (sorted_keys r) as [ks|]; [|done]. intros [= <-].
  exists ks. by rewrite lookup_insert_eq.
Qed.

(** C5.  When the library scan returns, the entry of each report under a
    key is the union of the symbol sets [dump_symbols] gave for the
    collected files of that width with that SONAME: every file adds to
    the entry, none replaces it, and a set holds a symbol once.  A key is
    in the report exactly when that union is not empty.  The lines
    written for a key are its symbols in sorted order, each once. *)
Theorem abi_report_entry_is_union env o r r32 :
  order_ok o → abi_reports env o = Ok (r, r32) →
  (∀ k symbol,
     (symbol ∈ entry r k ↔
        ∃ library, library ∈ collected_files env o ∧ is_32bit env library = false ∧
          get_soname env library = k ∧ symbol ∈ symbols_of env library) ∧
     (symbol ∈ entry r32 k ↔
        ∃ library, library ∈ collected_files env o ∧ is_32bit env library = true ∧
          get_soname env library = k ∧ symbol ∈ symbols_of env library)) ∧
  (∀ k, (r !! k = None ↔ entry r k = ∅) ∧ (r32 !! k = None ↔ entry r32 k = ∅)) ∧
  (∀ rep, rep = r ∨ rep = r32 → rep ≠ ∅ →
     ∀ path fs fs', write_abi_report o path rep fs = (fs', Ok ()) →
       ∃ ks, sorted_keys rep = Ok ks ∧
         (∀ k, k ∈ ks ↔ is_Some (rep !! k)) ∧
         fs' !! path = Some (concat_lines (ks ≫= λ soname,
           (λ symbol, Py.format_opt soname +:+ ":" +:+ symbol +:+ Py.str1 Py.nl)
             <$> sorted o (entry rep soname))) ∧
         ∀ k, Sorted String.le (sorted o (entry rep k)) ∧
              NoDup (sorted o (entry rep k)) ∧
              ∀ symbol, symbol ∈ sorted o (entry rep k) ↔ symbol ∈ entry rep k).
Proof.
  intros Ho Hr. destruct (abi_reports_spec env o r r32 Ho Hr) as (_ & Hw & Hw32 & Hs).
  split_and!.
  - intros k x. destruct (Hs k x) as [-> ->]. unfold declared_under.
    by setoid_rewrite elem_of_elements.
  - intros k. split; by apply no_empty_entry_None.
  - intros rep _ Hne path fs fs' (ks & Hks & Hfile)%write_abi_report_content; [|done].
    exists ks. split_and!; try done.
    + intros k. by apply elem_of_sorted_keys.
    + intros k. split_and!.
      * apply sorted_Sorted.
      * by apply sorted_NoDup.
      * intros x. by apply elem_of_sorted.
Qed.



(** ** Independence of the order of directory entries and of sets *)

(** Induction on a tree: a directory has the property when the entries
    in it have it. *)
Fixpoint dirent_ind (P : dirent → Prop)
    (HFile : P File) (HLink : P DirLink)
    (HDir : ∀ entries, Forall (λ e, P e.2) entries → P (Dir entries))
    (d : dirent) : P d :=
  match d with
  | File => HFile
  | DirLink => HLink
  | Dir entries =>
      HDir entries
        ((fix all (es : list (string * dirent)) : Forall (λ e, P e.2) es :=
            match es with
            | [] => List.Forall_nil _
            | e :: es' =>
                List.Forall_cons _ e es' (dirent_ind P HFile HLink HDir e.2) (all es')
            end) entries)
  end.

(** The paths of the files of a walk. *)
Definition files_of (walk : list (string * list string * list string)) : list string :=
  walk ≫= λ x, Py.path_join x.1.1 <$> x.2.

Lemma files_of_app w1 w2 : files_of (w1 ++ w2) = files_of w1 ++ files_of w2.
Proof. unfold files_of. by rewrite bind_app. Qed.

Lemma files_of_cons top dirs nondirs walk :
  files_of ((top, dirs, nondirs) :: walk) =
  (Py.path_join top <$> nondirs) ++ files_of walk.
Proof. done. Qed.

Lemma files_of_bind {A} (f : A → list (string * list string * list string)) l :
  files_of (l ≫= f) = l ≫= λ x, files_of (f x).
Proof.
  induction l as [|x l IH]; [done|].
  change ((x :: l) ≫= f) with (f x ++ (l ≫= f)).
  by rewrite files_of_app, IH.
Qed.

Section visit.
Context {W : Type} (g g' : string * dirent → W).

Let visit (h : string * dirent → W) (es : list (string * dirent)) :=
  map (λ e : string * dirent, (e.1, dirent_is_dir e.2, h e)) es.

(** The names and kinds of the entries do not depend on what is
    computed below them. *)
Lemma visit_names (b : bool) es :
  (λ x : string * bool * W, x.1.1) <$> filter (λ x, x.1.2 = b) (visit g es) =
  (λ x : string * bool * W, x.1.1) <$> filter (λ x, x.1.2 = b) (visit g' es).
Proof.
  induction es as [|e es IH]; [done|].
  unfold visit in *. cbn [map]. rewrite !filter_cons. cbn [fst snd].
  case_decide; rewrite ?fmap_cons; by rewrite IH.
Qed.
End visit.

Lemma walk_dirent_files o d :
  order_ok o →
  ∀ top, files_of (walk_dirent o top d) ≡ₚ files_of (walk_dirent plain_order top d).
Proof.
  intros [Hscan _]. induction d as [| |entries IH] using dirent_ind; intros top;
    [done..|].
  cbn [walk_dirent]. cbv zeta. rewrite !files_of_cons, !files_of_bind.
  cbn [scandir_order plain_order]. rewrite !Hscan.
  apply Permutation_app.
  - f_equiv.
    by rewrite (visit_names
      (λ e : string * dirent, walk_dirent o (Py.path_join top e.1) e.2)
      (λ e : string * dirent, walk_dirent plain_order (Py.path_join top e.1) e.2)).
  - clear Hscan. induction IH as [|e es He _ IHes]; [done|].
    cbn [map]. rewrite !bind_cons. cbn [snd]. by rewrite He, IHes.
Qed.

Lemma walk_files_order_irrel o o' top entries :
  order_ok o → order_ok o' →
  walk_files o top entries ≡ₚ walk_files o' top entries.
Proof.
  intros Ho Ho'. unfold walk_files, os_walk.
  change (files_of (walk_dirent o top (Dir entries))
          ≡ₚ files_of (walk_dirent o' top (Dir entries))).
  by rewrite (walk_dirent_files o), (walk_dirent_files o').
Qed.

Lemma walk_sets_order_irrel env o o' want32 path :
  order_ok o → order_ok o' →
  walk_sets env o want32 path = walk_sets env o' want32 path.
Proof.
  intros Ho Ho'.
  destruct (walk_sets env o want32 path) as [sn ex] eqn:H,
           (walk_sets env o' want32 path) as [sn' ex'] eqn:H'.
  f_equal; apply set_eq; intros x.
  - change sn with (sn, ex).1. change sn' with (sn', ex').1. rewrite <-H, <-H'.
    rewrite !elem_of_walk_sonames.
    by setoid_rewrite (walk_files_order_irrel o o' path _ Ho Ho').
  - change ex with (sn, ex).2. change ex' with (sn', ex').2. rewrite <-H, <-H'.
    rewrite !elem_of_walk_examine.
    by rewrite (walk_files_order_irrel o o' path _ Ho Ho').
Qed.

(** A loop that may raise gives the same result on a permuted list when
    two turns of it can be exchanged. *)
Lemma for_each_perm {A S} (f : S → A → res S) xs ys :
  (∀ st x y, (f st x ≫= λ st', f st' y) = (f st y ≫= λ st', f st' x)) →
  xs ≡ₚ ys → ∀ st, for_each f xs st = for_each f ys st.
Proof.
  intros Hcomm. induction 1 as [|x xs ys _ IH|x y xs|xs ys zs _ IH1 _ IH2];
    intros st; simpl.
  - done.
  - destruct (f st x); [apply IH|done].
  - specialize (Hcomm st y x). unfold mbind, res_bind in Hcomm.
    destruct (f st y) as [st1|e1], (f st x) as [st2|e2]; simpl in *.
    + destruct (f st1 x), (f st2 y); congruence.
    + by destruct (f st1 x).
    + by destruct (f st2 y).
    + done.
  - by rewrite IH1.
Qed.

Lemma dependency_step_comm env sonames deps x y :
  (dependency_step env sonames deps x ≫= λ deps', dependency_step env sonames deps' y) =
  (dependency_step env sonames deps y ≫= λ deps', dependency_step env sonames deps' x).
Proof.
  unfold dependency_step.
  destruct (get_shared_dependencies env x) as [dx|ex] eqn:Hx,
           (get_shared_dependencies env y) as [dy|ey] eqn:Hy; simpl;
    rewrite ?Hx, ?Hy; simpl.
  - f_equal. set_solver.
  - done.
  - done.
  - apply get_shared_dependencies_raise in Hx, Hy. by subst.
Qed.

Lemma get_all_dependencies_order_irrel env o o' want32 path :
  order_ok o → order_ok o' →
  get_all_dependencies env o want32 path = get_all_dependencies env o' want32 path.
Proof.
  intros Ho Ho'. unfold get_all_dependencies.
  rewrite (walk_sets_order_irrel env o o') by done.
  destruct (walk_sets env o' want32 path) as [sn ex].
  apply for_each_perm; [intros; apply dependency_step_comm|].
  destruct Ho as [_ ->], Ho' as [_ ->]. done.
Qed.

(** What one library directory adds to [collected_files]. *)
Definition collected_in (env : Env) (check_path : string) : list string :=
  let check_path :=
    match check_path with
    | String "/" rest => rest
    | _ => check_path
    end in
  let dirn := Py.path_join (source_dir env) check_path in
  if negb (os_path_isdir env dirn) then []
  else filter (λ p, is_file_valid env p = true)
         (Py.path_join dirn <$> os_listdir env dirn).

Lemma collect_dir_union env o collected check_path :
  order_ok o →
  collect_dir env o collected check_path =
  collected ∪ list_to_set (collected_in env check_path).
Proof.
  intros [Hscan _]. unfold collect_dir, collected_in. cbv zeta.
  set (dirn := Py.path_join (source_dir env) _).
  destruct (os_path_isdir env dirn); simpl; [|set_solver].
  apply set_eq. intros x.
  rewrite (elem_of_foldl_union _
    (λ file, if is_file_valid env (Py.path_join dirn file)
             then {[Py.path_join dirn file]} else ∅)).
  - rewrite elem_of_union, elem_of_list_to_set, list_elem_of_filter, list_elem_of_fmap.
    setoid_rewrite (Hscan dirn). split.
    + intros [?|(file & Hf & Hx)]; [by left|right].
      destruct (is_file_valid env (Py.path_join dirn file)) eqn:Hv;
        [|by apply not_elem_of_empty in Hx].
      apply elem_of_singleton in Hx as ->. eauto.
    + intros [?|(Hv & file & -> & Hf)]; [by left|right].
      exists file. rewrite Hv. set_solver.
  - intros acc file. destruct (is_file_valid env _); simpl; set_solver.
Qed.

Lemma elem_of_collected_files env o path :
  order_ok o →
  path ∈ collected_files env o ↔
  ∃ check_path, check_path ∈ valid_dirs ∧ path ∈ collected_in env check_path.
Proof.
  intros Ho. unfold collected_files.
  rewrite (elem_of_foldl_union _ (λ cp, list_to_set (collected_in env cp)))
    by (intros; by apply collect_dir_union).
  setoid_rewrite elem_of_list_to_set.
  split; [by intros [?%not_elem_of_empty|?]|by right].
Qed.

Lemma collected_files_order_irrel env o o' :
  order_ok o → order_ok o' → collected_files env o = collected_files env o'.
Proof.
  intros Ho Ho'. apply set_eq. intros x. by rewrite !elem_of_collected_files.
Qed.

Lemma abi_reports_order_irrel env o o' :
  order_ok o → order_ok o' → abi_reports env o = abi_reports env o'.
Proof.
  intros Ho Ho'. unfold abi_reports.
  by rewrite (collected_files_order_irrel env o o'), (sorted_order_irrel o o').
Qed.

Lemma report_lines_order_irrel (o o' : Order) (r : report) ks :
  order_ok o → order_ok o' → report_lines o r ks = report_lines o' r ks.
Proof.
  intros Ho Ho'. unfold report_lines. induction ks as [|k ks IH]; [done|].
  rewrite !bind_cons. by rewrite IH, (sorted_order_irrel o o').
Qed.

Lemma write_abi_report_order_irrel (o o' : Order) (path : string) (r : report) :
  order_ok o → order_ok o' → write_abi_report o path r = write_abi_report o' path r.
Proof.
  intros Ho Ho'. unfold write_abi_report. case_bool_decide; [done|].
  unfold mbind, run_bind, update, lift.
  destruct (sorted_keys r) as [ks|]; [|done].
  by rewrite (report_lines_order_irrel o o').
Qed.

Lemma write_used_libs_order_irrel o o' path deps :
  order_ok o → order_ok o' → write_used_libs o path deps = write_used_libs o' path deps.
Proof.
  intros Ho Ho'. unfold write_used_libs. by rewrite (sorted_order_irrel o o').
Qed.

Lemma length_filter_perm {A} (P : A → Prop) `{!∀ x, Decision (P x)} (l l' : list A) :
  l ≡ₚ l' → length (filter P l) = length (filter P l').
Proof. by intros ->. Qed.

Lemma prepare_order_irrel env o o' :
  order_ok o → order_ok o' → prepare env o = prepare env o'.
Proof.
  intros [Ho _] [Ho' _]. unfold prepare.
  destruct (download_exists env); simpl; [|done].
  rewrite (length_filter_perm _ _ (download_listing env)) by apply Ho.
  by rewrite (length_filter_perm _ (scandir_order o' _ _ _) (download_listing env))
    by apply Ho'.
Qed.

Lemma write_reports_order_irrel env o o' reports :
  order_ok o → order_ok o' → write_reports env o reports = write_reports env o' reports.
Proof.
  intros Ho Ho'. unfold write_reports, get_all_native_dependencies,
    get_all_32bit_dependencies.
  rewrite !(write_abi_report_order_irrel o o') by done.
  rewrite !(get_all_dependencies_order_irrel env o o') by done.
  unfold mbind at 3 4, run_bind. unfold lift.
  destruct (get_all_dependencies env o' false _) as [d|]; [|done].
  destruct (get_all_dependencies env o' true _) as [d32|]; [|done].
  by rewrite !(write_used_libs_order_irrel o o').
Qed.

Lemma examine_abi_order_irrel env o o' :
  order_ok o → order_ok o' → examine_abi env o = examine_abi env o'.
Proof.
  intros Ho Ho'. unfold examine_abi.
  rewrite (prepare_order_irrel env o o'), (abi_reports_order_irrel env o o') by done.
  unfold mbind at 2, run_bind, lift.
  destruct (abi_reports env o') as [reports|]; [|done].
  by rewrite (write_reports_order_irrel env o o').
Qed.

(** ** Running twice *)

(** What a run can do to the file at one path: leave it, write a text
    that does not depend on what was there, or truncate it if it is
    there. *)
Definition simple_at (h : option string → option string) : Prop :=
  (∀ x, h x = x) ∨ (∃ v, ∀ x, h x = Some v) ∨ (∀ x, h x = (λ _, "") <$> x).

Definition pointwise (g : files → files) : Prop :=
  ∀ p, ∃ h, simple_at h ∧ ∀ fs, g fs !! p = h (fs !! p).

(** Code whose result does not depend on the files it starts from, and
    whose effect on them is [pointwise]. *)
Definition static {A} (m : run A) : Prop :=
  ∃ g r, pointwise g ∧ ∀ fs, m fs = (g fs, r).

Lemma simple_at_compose h1 h2 :
  simple_at h1 → simple_at h2 → simple_at (h2 ∘ h1).
Proof.
  unfold simple_at, compose.
  intros [H1|[[v1 H1]|H1]] [H2|[[v2 H2]|H2]].
  - left. intros x. by rewrite H2, H1.
  - right; left. exists v2. intros x. by rewrite H2.
  - right; right. intros x. by rewrite H2, H1.
  - right; left. exists v1. intros x. by rewrite H2, H1.
  - right; left. exists v2. intros x. by rewrite H2.
  - right; left. exists "". intros x. by rewrite H2, H1.
  - right; right. intros x. by rewrite H2, H1.
  - right; left. exists v2. intros x. by rewrite H2.
  - right; right. intros x. rewrite H2, H1. by destruct x.
Qed.

Lemma simple_at_idemp h x : simple_at h → h (h x) = h x.
Proof.
  intros [H|[[v H]|H]]; rewrite !H; [done..|]. by destruct x.
Qed.

Lemma pointwise_id : pointwise id.
Proof. intros p. exists id. split; [by left|done]. Qed.

Lemma pointwise_insert path text : pointwise (<[path := text]>).
Proof.
  intros p. destruct (decide (p = path)) as [->|Hne].
  - exists (λ _, Some text). split; [right; left; eauto|].
    intros fs. by rewrite lookup_insert_eq.
  - exists id. split; [by left|]. intros fs. by rewrite lookup_insert_ne.
Qed.

Lemma pointwise_truncate path : pointwise (truncate_file path).
Proof.
  intros p. destruct (decide (p = path)) as [->|Hne].
  - exists (fmap (λ _, "")). split; [by right; right|].
    intros fs. rewrite truncate_file_lookup. by case_decide.
  - exists id. split; [by left|]. intros fs. rewrite truncate_file_lookup.
    by case_decide.
Qed.

Lemma pointwise_compose g1 g2 : pointwise g1 → pointwise g2 → pointwise (g2 ∘ g1).
Proof.
  intros H1 H2 p. destruct (H1 p) as (h1 & ? & Hg1), (H2 p) as (h2 & ? & Hg2).
  exists (h2 ∘ h1). split; [by apply simple_at_compose|].
  intros fs. simpl. by rewrite Hg2, Hg1.
Qed.

Lemma pointwise_idemp g fs : pointwise g → g (g fs) = g fs.
Proof.
  intros Hg. apply map_eq. intros p. destruct (Hg p) as (h & Hh & Hp).
  rewrite !Hp. by apply simple_at_idemp.
Qed.

Lemma static_lift {A} (r : res A) : static (lift r).
Proof. exists id, r. split; [apply pointwise_id|done]. Qed.

Lemma static_update g : pointwise g → static (update g).
Proof. intros Hg. by exists g, (Ok ()). Qed.

Lemma static_bind {A B} (m : run A) (f : A → run B) :
  static m → (∀ a, static (f a)) → static (m ≫= f).
Proof.
  intros (g & r & Hg & Hm) Hf. destruct r as [a|e].
  - destruct (Hf a) as (g' & r' & Hg' & Hfa). exists (g' ∘ g), r'.
    split; [by apply pointwise_compose|].
    intros fs. rewrite run_bind_unfold, Hm. apply Hfa.
  - exists g, (Raise e). split; [done|].
    intros fs. by rewrite run_bind_unfold, Hm.
Qed.

Lemma static_idemp {A} (m : run A) fs : static m → m (m fs).1 = m fs.
Proof.
  intros (g & r & Hg & Hm). rewrite !Hm. simpl. by rewrite pointwise_idemp.
Qed.

Lemma static_write_abi_report (o : Order) (path : string) (r : report) :
  static (write_abi_report o path r).
Proof.
  unfold write_abi_report. case_bool_decide.
  - apply static_update, pointwise_truncate.
  - apply static_bind; [apply static_update, pointwise_insert|]. intros _.
    apply static_bind; [apply static_lift|]. intros ks.
    apply static_update, pointwise_insert.
Qed.

Lemma static_write_used_libs o path deps : static (write_used_libs o path deps).
Proof.
  unfold write_used_libs. case_bool_decide.
  - apply static_update, pointwise_truncate.
  - apply static_update, pointwise_insert.
Qed.

Lemma static_examine_abi env o : static (examine_abi env o).
Proof.
  unfold examine_abi, write_reports.
  repeat first
    [ apply static_lift | apply static_write_abi_report
    | apply static_write_used_libs
    | apply static_bind; [|intros ?] ].
Qed.

(** ** What the report files hold *)

(** The file of a symbol report after its write, from what was there. *)
Definition abi_report_file (o : Order) (r : report) (old : option string)
    : option string :=
  if bool_decide (r = ∅) then (λ _, "") <$> old
  else match sorted_keys r with
       | Ok ks => Some (concat_lines (report_lines o r ks))
       | Raise _ => Some ""
       end.

(** The file of a dependency report after its write. *)
Definition used_libs_file (o : Order) (deps : gset string) (old : option string)
    : option string :=
  if bool_decide (deps = ∅) then (λ _, "") <$> old
  else Some (concat_lines ((λ soname, soname +:+ Py.str1 Py.nl) <$> sorted o deps)).

Lemma write_abi_report_lookup (o : Order) (path : string) (r : report) fs :
  (write_abi_report o path r fs).1 !! path = abi_report_file o r (fs !! path).
Proof.
  unfold write_abi_report, abi_report_file. case_bool_decide.
  - unfold update. simpl. rewrite truncate_file_lookup. by case_decide.
  - rewrite !run_bind_unfold. unfold update, lift. simpl.
    destruct (sorted_keys r); simpl; by rewrite lookup_insert_eq.
Qed.

Lemma write_used_libs_lookup o path deps fs :
  (write_used_libs o path deps fs).1 !! path = used_libs_file o deps (fs !! path).
Proof.
  unfold write_used_libs, used_libs_file, update. case_bool_decide; simpl.
  - rewrite truncate_file_lookup. by case_decide.
  - by rewrite lookup_insert_eq.
Qed.

Lemma write_reports_files env o r r32 fs fs' :
  write_reports env o (r, r32) fs = (fs', Ok ()) →
  ∃ lib_deps lib_deps32,
    get_all_native_dependencies env o (source_dir env) = Ok lib_deps ∧
    get_all_32bit_dependencies env o (source_dir env) = Ok lib_deps32 ∧
    fs' !! report_path env "abi_symbols"
      = abi_report_file o r (fs !! report_path env "abi_symbols") ∧
    fs' !! report_path env "abi_symbols32"
      = abi_report_file o r32 (fs !! report_path env "abi_symbols32") ∧
    fs' !! report_path env "abi_used_libs"
      = used_libs_file o lib_deps (fs !! report_path env "abi_used_libs") ∧
    fs' !! report_path env "abi_used_libs32"
      = used_libs_file o lib_deps32 (fs !! report_path env "abi_used_libs32") ∧
    ∀ p, p ∉ [report_path env "abi_symbols"; report_path env "abi_symbols32";
              report_path env "abi_used_libs"; report_path env "abi_used_libs32"] →
         fs' !! p = fs !! p.
Proof.
  intros (fs1 & fs2 & d & d32 & H1 & H2 & Hd & Hd32 & ->)%write_reports_inv.
  pose proof (write_abi_report_lookup o (report_path env "abi_symbols") r fs) as L1.
  pose proof (write_abi_report_lookup o (report_path env "abi_symbols32") r32 fs1) as L2.
  rewrite H1 in L1. rewrite H2 in L2. simpl in L1, L2.
  exists d, d32. split_and!; try done.
  - rewrite !write_used_libs_other by (by apply report_path_ne).
    by rewrite (write_abi_report_other _ _ _ _ _ _ _ H2) by (by apply report_path_ne).
  - rewrite !write_used_libs_other by (by apply report_path_ne).
    by rewrite L2, (write_abi_report_other _ _ _ _ _ _ _ H1)
      by (by apply report_path_ne).
  - rewrite write_used_libs_other by (by apply report_path_ne).
    rewrite write_used_libs_lookup.
    rewrite (write_abi_report_other _ _ _ _ _ _ _ H2) by (by apply report_path_ne).
    by rewrite (write_abi_report_other _ _ _ _ _ _ _ H1) by (by apply report_path_ne).
  - rewrite write_used_libs_lookup.
    rewrite write_used_libs_other by (by apply report_path_ne).
    rewrite (write_abi_report_other _ _ _ _ _ _ _ H2) by (by apply report_path_ne).
    by rewrite (write_abi_report_other _ _ _ _ _ _ _ H1) by (by apply report_path_ne).
  - intros p Hp. rewrite !write_used_libs_other by set_solver.
    rewrite (write_abi_report_other _ _ _ _ _ _ _ H2) by set_solver.
    by rewrite (write_abi_report_other _ _ _ _ _ _ _ H1) by set_solver.
Qed.

Lemma NoDup_omap_id {A} (l : list (option A)) : NoDup l → NoDup (omap id l).
Proof.
  induction 1 as [|[a|] l Hx _ IH]; simpl; [constructor| |done].
  constructor; [|done]. rewrite list_elem_of_omap.
  intros (y & Hy & Hid). unfold id in Hid. by subst.
Qed.

(** The keys come out of [sorted_keys] in order. *)
Lemma sorted_keys_Sorted (r : report) ks :
  sorted_keys r = Ok ks →
  ks = [None] ∨ ∃ names, ks = Some <$> names ∧ Sorted String.le names ∧ NoDup names.
Proof.
  unfold sorted_keys. destruct (r !! None).
  - destruct (string_keys r); [|done]. intros [= <-]. by left.
  - intros [= <-]. right. eexists. split; [done|]. split.
    + apply (Sorted_merge_sort _).
    + rewrite merge_sort_Permutation. unfold string_keys.
      apply NoDup_omap_id, NoDup_elements.
Qed.

(** C4.  For one tree and one set of answers of the tools, the result of
    a run -- how it ends and every file it leaves -- is the same for
    every order in which directories hand out their entries and sets are
    iterated, and a second run on the files the first one left changes
    nothing.  When the Write step runs to its end, each report file is
    the text of its report in sorted order: SONAMEs in order, the symbols
    of each SONAME in order, one dependency per line in order; no other
    file is touched. *)
Theorem report_files_independent_of_order env o o' fs :
  order_ok o → order_ok o' →
  examine_abi env o' fs = examine_abi env o fs ∧
  examine_abi env o' (examine_abi env o fs).1 = examine_abi env o fs ∧
  (∀ r r32 fs',
     prepare env o = Ok () → abi_reports env o = Ok (r, r32) →
     write_reports env o (r, r32) fs = (fs', Ok ()) →
     (examine_abi env o fs).1 = fs' ∧
     ∃ lib_deps lib_deps32,
       get_all_native_dependencies env o (source_dir env) = Ok lib_deps ∧
       get_all_32bit_dependencies env o (source_dir env) = Ok lib_deps32 ∧
       fs' !! report_path env "abi_symbols"
         = abi_report_file o r (fs !! report_path env "abi_symbols") ∧
       fs' !! report_path env "abi_symbols32"
         = abi_report_file o r32 (fs !! report_path env "abi_symbols32") ∧
       fs' !! report_path env "abi_used_libs"
         = used_libs_file o lib_deps (fs !! report_path env "abi_used_libs") ∧
       fs' !! report_path env "abi_used_libs32"
         = used_libs_file o lib_deps32 (fs !! report_path env "abi_used_libs32") ∧
       ∀ p, p ∉ [report_path env "abi_symbols"; report_path env "abi_symbols32";
                 report_path env "abi_used_libs"; report_path env "abi_used_libs32"] →
            fs' !! p = fs !! p) ∧
  (∀ s : gset string,
     Sorted String.le (sorted o s) ∧ NoDup (sorted o s) ∧
     ∀ x, x ∈ sorted o s ↔ x ∈ s) ∧
  (∀ (r : report) ks, sorted_keys r = Ok ks →
     (∀ k, k ∈ ks ↔ is_Some (r !! k)) ∧
     (ks = [None] ∨
      ∃ names, ks = Some <$> names ∧ Sorted String.le names ∧ NoDup names)).
Proof.
  intros Ho Ho'. split_and!.
  - by rewrite (examine_abi_order_irrel env o' o).
  - rewrite (examine_abi_order_irrel env o' o) by done.
    apply static_idemp, static_examine_abi.
  - intros r r32 fs' Hp Hr Hw. split.
    + by rewrite (examine_abi_files env o fs (r, r32)), Hw.
    + by apply write_reports_files.
  - intros s. split_and!.
    + apply sorted_Sorted.
    + by apply sorted_NoDup.
    + intros x. by apply elem_of_sorted.
  - intros r ks Hks. split.
    + intros k. by apply (elem_of_sorted_keys r).
    + by apply (sorted_keys_Sorted r).
Qed.

(** * Concrete runs *)

Module Scenario.
Import Sample.

Definition elf64_so (path : string) : option string :=
  Some (path +:+ ": ELF 64-bit LSB shared object, x86-64, version 1 (SYSV), dynamically linked").
Definition elf64_exe (path : string) : option string :=
  Some (path +:+ ": ELF 64-bit LSB executable, x86-64, version 1 (SYSV), dynamically linked").
Definition elf32_so (path : string) : option string :=
  Some (path +:+ ": ELF 32-bit LSB shared object, Intel 80386, version 1 (SYSV), dynamically linked").
Definition soname_line (name : string) : option string :=
  Some ("  SONAME               " +:+ name).
Definition needed (name : string) : string :=
  " 0x0000000000000001 (NEEDED)             Shared library: [" +:+ name +:+ "]".

(** Two executables in [usr/bin]: [tool] declares the SONAME
    [libtool.so.1], [client] needs it. *)
Definition tool : string := root +:+ "/usr/bin/tool".
Definition client : string := root +:+ "/usr/bin/client".

Definition executables : Env :=
  env_of [tool; client] [] []
    [("usr", Dir [("bin", Dir [("tool", File); ("client", File)])])]
    [(file_cmd tool, elf64_exe tool);
     (file_cmd client, elf64_exe client);
     (objdump_cmd tool, soname_line "libtool.so.1");
     (readelf_cmd tool, Some (lines [needed "libc.so.6"]));
     (readelf_cmd client, Some (lines [needed "libtool.so.1"; needed "libc.so.6"]))].

(** A provider and a consumer of [libinternal.so.2], and a consumer of
    [libexternal.so.5] (scenarios C and D of the specification). *)
Definition libinternal : string := root +:+ "/usr/lib64/libinternal.so.2".
Definition app : string := root +:+ "/usr/bin/app".

Definition provider_and_consumer : Env :=
  env_of [libinternal; app] []
    [(root +:+ "/usr/lib64", ["libinternal.so.2"])]
    [("usr", Dir [("bin", Dir [("app", File)]);
                  ("lib64", Dir [("libinternal.so.2", File)])])]
    [(file_cmd libinternal, elf64_so libinternal);
     (file_cmd app, elf64_exe app);
     (objdump_cmd libinternal, soname_line "libinternal.so.2");
     (nm_cmd libinternal, Some (lines ["0000000000001100 T internal_init"]));
     (readelf_cmd libinternal, Some (lines [needed "libc.so.6"]));
     (readelf_cmd app,
      Some (lines [needed "libinternal.so.2"; needed "libexternal.so.5"]))].

(** Two files of [usr/lib64] with the SONAME [libz.so.1]. *)
Definition libz_a : string := root +:+ "/usr/lib64/libz.so.1.2".
Definition libz_b : string := root +:+ "/usr/lib64/libz.so.1.3".

Definition same_soname : Env :=
  env_of [libz_a; libz_b] []
    [(root +:+ "/usr/lib64", ["libz.so.1.3"; "libz.so.1.2"])]
    [("usr", Dir [("lib64", Dir [("libz.so.1.3", File); ("libz.so.1.2", File)])])]
    [(file_cmd libz_a, elf64_so libz_a);
     (file_cmd libz_b, elf64_so libz_b);
     (objdump_cmd libz_a, soname_line "libz.so.1");
     (objdump_cmd libz_b, soname_line "libz.so.1");
     (nm_cmd libz_a,
      Some (lines ["0000000000002000 T inflate"; "0000000000001000 T deflate";
                   "0000000000000500 T _init"; "malformed"]));
     (nm_cmd libz_b,
      Some (lines ["0000000000002000 T inflate"; "0000000000003000 T crc32";
                   "0000000000004000 D z_errmsg"]))].

(** A library with SONAME next to one without. *)
Definition libplain : string := root +:+ "/usr/lib64/libplain.so".

Definition missing_soname : Env :=
  env_of [libfoo; libplain] []
    [(root +:+ "/usr/lib64", ["libfoo.so.1"; "libplain.so"])]
    [("usr", Dir [("lib64", Dir [("libfoo.so.1", File); ("libplain.so", File)])])]
    [(file_cmd libfoo, elf64_so libfoo);
     (file_cmd libplain, elf64_so libplain);
     (objdump_cmd libfoo, soname_line "libfoo.so.1");
     (nm_cmd libfoo, Some (lines ["0000000000001100 T foo"]));
     (nm_cmd libplain, Some (lines ["0000000000001100 T helper"]))].

(** The library without SONAME alone. *)
Definition only_missing_soname : Env :=
  env_of [libplain] []
    [(root +:+ "/usr/lib64", ["libplain.so"])]
    [("usr", Dir [("lib64", Dir [("libplain.so", File)])])]
    [(file_cmd libplain, elf64_so libplain);
     (nm_cmd libplain, Some (lines ["0000000000001100 T helper"]))].


(** The call of [readelf] raises for the one executable. *)
Definition readelf_raises : Env :=
  env_of [tool] [] []
    [("usr", Dir [("bin", Dir [("tool", File)])])]
    [(file_cmd tool, elf64_exe tool);
     (readelf_cmd tool, None)].

(** An order that hands everything out backwards. *)
Definition backwards : Order :=
  {| scandir_order := λ _ _ l, reverse l; set_iter := λ s, reverse (elements s) |}.

Lemma backwards_ok : order_ok backwards.
Proof. split; intros; simpl; by rewrite reverse_Permutation. Qed.

End Scenario.

(** ** The claims on concrete runs *)

Section concrete.
Import Sample Scenario.

Local Ltac compute_eq := vm_compute; reflexivity.
Local Ltac decide_by_computation := apply (bool_decide_unpack _); vm_compute; exact I.

(** C1 as written fails: scenario B leaves an empty 32-bit symbol
    report, the run ends normally, and no file [abi_symbols32] exists
    afterwards. *)
Lemma empty_report_file_is_not_created :
  prepare scenario_b plain_order = Ok () ∧
  abi_reports scenario_b plain_order
    = Ok ({[Some "libfoo.so.1" := {["bar"; "foo"]}]}, ∅) ∧
  (examine_abi scenario_b plain_order ∅).2 = Ok () ∧
  (examine_abi scenario_b plain_order ∅).1 !! report_path scenario_b "abi_symbols32"
    = None.
Proof. split_and!; compute_eq. Qed.

Lemma empty_report_truncates_existing_file_witness :
  (examine_abi scenario_b plain_order {["/w/abi_symbols32" := "stale"]}).1
    !! "/w/abi_symbols32" = Some "".
Proof.
  destruct (empty_report_truncates_existing_file scenario_b plain_order
              {["/w/abi_symbols32" := "stale"]}
              (write_reports scenario_b plain_order
                 ({[Some "libfoo.so.1" := {["bar"; "foo"]}]}, ∅)
                 {["/w/abi_symbols32" := "stale"]}).1
              {[Some "libfoo.so.1" := {["bar"; "foo"]}]} ∅)
    as (Hfs & d & d32 & _ & _ & _ & H32 & _); [compute_eq..|].
  rewrite Hfs. exact (H32 eq_refl).
Defined.

(** C2 as written fails: the executable [tool] is a dynamic 64-bit
    binary with a SONAME, it does not pass [is_file_valid], and its
    SONAME is not in the set that is subtracted: it shows up in the
    dependency report. *)
Lemma executable_soname_is_not_provided :
  tool ∈ walk_files plain_order root (install_tree executables) ∧
  is_dynamic_binary executables tool = true ∧
  is_32bit executables tool = false ∧
  is_file_valid executables tool = false ∧
  get_soname executables tool = Some "libtool.so.1" ∧
  ("libtool.so.1" ∉ (walk_sets executables plain_order false root).1) ∧
  get_all_native_dependencies executables plain_order root
    = Ok {["libc.so.6"; "libtool.so.1"]}.
Proof.
  split_and!; try compute_eq.
  - vm_compute. repeat constructor.
  - decide_by_computation.
Qed.

Lemma dependency_report_is_difference_witness :
  get_all_native_dependencies provider_and_consumer plain_order root
    = Ok {["libc.so.6"; "libexternal.so.5"]} ∧
  "libinternal.so.2" ∉ ({["libc.so.6"; "libexternal.so.5"]} : gset string).
Proof.
  pose proof (dependency_report_is_difference provider_and_consumer plain_order
                false root plain_order_ok) as (_ & H & _).
  assert (get_all_native_dependencies provider_and_consumer plain_order root
          = Ok {["libc.so.6"; "libexternal.so.5"]}) as Hd by compute_eq.
  split; [exact Hd|]. destruct (H _ Hd) as [_ Hno].
  apply (Hno libinternal); try compute_eq.
  vm_compute. repeat constructor.
Defined.

Lemma get_shared_dependencies_raises_on_failure_witness :
  get_shared_dependencies readelf_raises tool = Raise (Uncaught AttributeError).
Proof.
  apply get_shared_dependencies_raises_on_failure. compute_eq.
Defined.

Lemma abi_report_entry_is_union_witness :
  "deflate" ∈ entry ({[Some "libz.so.1" := {["crc32"; "deflate"; "inflate"]}]} : report)
                (Some "libz.so.1") ∧
  "crc32" ∈ entry ({[Some "libz.so.1" := {["crc32"; "deflate"; "inflate"]}]} : report)
              (Some "libz.so.1").
Proof.
  destruct (abi_report_entry_is_union same_soname backwards
              {[Some "libz.so.1" := {["crc32"; "deflate"; "inflate"]}]} ∅
              backwards_ok) as (H & _); [compute_eq|].
  split.
  - apply (proj1 (H _ _)). exists libz_a.
    split_and!; try compute_eq; decide_by_computation.
  - apply (proj1 (H _ _)). exists libz_b.
    split_and!; try compute_eq; decide_by_computation.
Defined.



Lemma report_files_independent_of_order_witness :
  examine_abi same_soname backwards ∅ = examine_abi same_soname plain_order ∅.
Proof.
  exact (proj1 (report_files_independent_of_order same_soname plain_order backwards ∅
                  plain_order_ok backwards_ok)).
Defined.

(** C10 on the code.  A library without SONAME puts its symbols under
    the key [None] and the scan goes on; with a named library in the
    same report, sorting the keys in the Write step raises a
    [TypeError]: the run ends there, [abi_symbols] left empty and no
    other report written.  Alone, the key [None] is written out as the
    text [None]. *)
Theorem null_soname_key_stops_the_write_step :
  get_soname missing_soname libplain = None ∧
  abi_reports missing_soname plain_order
    = Ok (<[None := {["helper"]}]> {[Some "libfoo.so.1" := {["foo"]}]}, ∅) ∧
  sorted_keys (<[None := {["helper"]}]> {[Some "libfoo.so.1" := {["foo"]}]})
    = Raise (Uncaught TypeError) ∧
  examine_abi missing_soname plain_order ∅
    = ({["/w/abi_symbols" := ""]}, Raise (Uncaught TypeError)) ∧
  exit_status (examine_abi missing_soname plain_order ∅).2 = 1%Z ∧
  examine_abi only_missing_soname plain_order ∅
    = ({["/w/abi_symbols" := "None:helper" +:+ Py.str1 Py.nl]}, Ok ()).
Proof. split_and!; compute_eq. Qed.

End concrete.

(** * Further properties of the code *)

(** ** Fields and tokens *)

(** No character of [s] is white space. *)
Fixpoint no_space (s : string) : bool :=
  match s with
  | "" => true
  | String c s' => negb (Py.isspace c) && no_space s'
  end.

(** No character of [s] is a line feed. *)
Fixpoint no_nl (s : string) : bool :=
  match s with
  | "" => true
  | String c s' => negb (bool_decide (c = Py.nl)) && no_nl s'
  end.

Lemma no_space_no_nl s : no_space s = true → no_nl s = true.
Proof.
  induction s as [|c s IH]; simpl; [done|].
  intros [Hc Hs]%andb_true_iff. rewrite IH by done.
  case_bool_decide; [subst; done|done].
Qed.

(** The fields [str.split] returns are not empty and hold no white
    space. *)
Lemma split_fields s w :
  w ∈ Py.split s → w ≠ "" ∧ no_space w = true.
Proof.
  revert w. induction s as [|c s IH]; intros w; simpl.
  - by intros ?%elem_of_nil.
  - destruct (Py.isspace c) eqn:Hc; [apply IH|].
    destruct s as [|c' s'].
    + intros ->%list_elem_of_singleton. simpl. by rewrite Hc.
    + destruct (Py.isspace c') eqn:Hc'.
      * intros [->|Hw]%elem_of_cons; [simpl; by rewrite Hc|by apply IH].
      * destruct (Py.split (String c' s')) as [|w0 ws] eqn:Hsplit.
        -- intros ->%list_elem_of_singleton. simpl. by rewrite Hc.
        -- intros [->|Hw]%elem_of_cons.
           ++ split; [done|]. simpl. rewrite Hc. simpl.
              apply (IH w0). by left.
           ++ apply IH. by right.
Qed.



(** ** The classifier, continued *)

(** X3.  [is_dynamic_binary] is [True] exactly for a path that exists,
    is a regular file (links followed), and whose magic is a text that
    [valid_dyn] matches; every regular file that passes [is_file_valid]
    is a dynamic binary, and [is_32bit] needs a magic that holds the
    text ELF 32-bit. *)
Theorem is_dynamic_binary_classifies env path :
  (is_dynamic_binary env path = true ↔
     os_path_exists env path = true ∧ os_path_isfile env path = true ∧
     ∃ mg, get_file_magic env path = Some mg ∧ mg ≠ "" ∧ valid_dyn mg = true) ∧
  (is_file_valid env path = true → os_path_isfile env path = true →
     is_dynamic_binary env path = true) ∧
  (is_32bit env path = true ↔
     ∃ mg, get_file_magic env path = Some mg ∧ Py.contains "ELF 32-bit" mg = true) ∧
  (get_file_magic env path = None →
     is_dynamic_binary env path = false ∧ is_file_valid env path = false ∧
     is_32bit env path = false).
Proof.
  split_and!.
  - apply is_dynamic_binary_true.
  - apply is_file_valid_dynamic.
  - unfold is_32bit. destruct (get_file_magic env path) as [mg|].
    + destruct (falsy (Some mg)) eqn:Hf.
      * destruct mg; [|by simpl in Hf]. split; [done|].
        intros (mg & [= <-] & H). by vm_compute in H.
      * cbn [default]. unfold id. destruct (Py.contains "ELF 32-bit" mg) eqn:Hc.
        -- split; [eauto|done].
        -- split; [done|]. intros (mg' & [= <-] & ?). congruence.
    + split; [done|]. by intros (? & ? & _).
  - intros Hmg. unfold is_dynamic_binary, is_file_valid, is_32bit. rewrite Hmg. simpl.
    by destruct (os_path_exists env path), (os_path_isfile env path),
      (os_path_islink env path).
Qed.

(** ** The two dependency passes side by side *)

(** X4.  Every dynamic binary of the walk is examined by exactly one of
    [get_all_native_dependencies] and [get_all_32bit_dependencies], and
    nothing else is examined. *)
Theorem dynamic_binaries_are_examined_once env o path :
  let examine := (walk_sets env o false path).2 in
  let examine32 := (walk_sets env o true path).2 in
  examine ## examine32 ∧
  ∀ fpath, fpath ∈ examine ∪ examine32 ↔
    fpath ∈ walk_files o path (install_tree env) ∧ is_dynamic_binary env fpath = true.
Proof.
  intros examine examine32. subst examine examine32. split.
  - intros f [_ [_ H]]%elem_of_walk_examine [_ [_ H']]%elem_of_walk_examine.
    congruence.
  - intros f. rewrite elem_of_union, !elem_of_walk_examine.
    destruct (is_32bit env f); naive_solver.
Qed.

(** ** The library scan, continued *)

(** X5.  The collected files are exactly the direct entries of the six
    library directories under the extraction root that pass
    [is_file_valid]; so no symbolic link is collected and nothing below
    a subdirectory is. *)
Theorem collected_files_are_valid_entries env o path :
  order_ok o →
  (path ∈ collected_files env o ↔
   ∃ dir file,
     dir ∈ ["usr/lib"; "usr/lib64"; "usr/lib32"; "lib"; "lib32"; "lib64"] ∧
     os_path_isdir env (Py.path_join (source_dir env) dir) = true ∧
     file ∈ os_listdir env (Py.path_join (source_dir env) dir) ∧
     path = Py.path_join (Py.path_join (source_dir env) dir) file ∧
     is_file_valid env path = true) ∧
  (path ∈ collected_files env o →
   is_file_valid env path = true ∧ os_path_islink env path = false).
Proof.
  intros Ho.
  assert (path ∈ collected_files env o ↔
    ∃ dir file,
      dir ∈ ["usr/lib"; "usr/lib64"; "usr/lib32"; "lib"; "lib32"; "lib64"] ∧
      os_path_isdir env (Py.path_join (source_dir env) dir) = true ∧
      file ∈ os_listdir env (Py.path_join (source_dir env) dir) ∧
      path = Py.path_join (Py.path_join (source_dir env) dir) file ∧
      is_file_valid env path = true) as Hiff.
  { rewrite elem_of_collected_files by done. unfold valid_dirs. split.
    - intros (cp & Hcp & Hin). unfold collected_in in Hin.
      assert (∃ dir, dir ∈ ["usr/lib"; "usr/lib64"; "usr/lib32"; "lib"; "lib32"; "lib64"] ∧
                match cp with String "/" rest => rest | _ => cp end = dir)
        as (dir & Hdir & Heq).
      { repeat (apply elem_of_cons in Hcp as [->|Hcp]);
          try (by apply elem_of_nil in Hcp);
          simpl; eexists; (split; [|reflexivity]); set_solver. }
      cbv zeta in Hin. rewrite Heq in Hin.
      destruct (os_path_isdir env _) eqn:Hisdir; simpl in Hin;
        [|by apply elem_of_nil in Hin].
      apply list_elem_of_filter in Hin as [Hv (file & -> & Hf)%list_elem_of_fmap].
      exists dir, file. split_and!; done.
    - intros (dir & file & Hdir & Hisdir & Hf & -> & Hv).
      exists (String "/" dir). split.
      + repeat (apply elem_of_cons in Hdir as [->|Hdir]);
          try (by apply elem_of_nil in Hdir); set_solver.
      + unfold collected_in. cbv zeta. simpl. rewrite Hisdir. simpl.
        apply list_elem_of_filter. split; [done|]. apply list_elem_of_fmap. eauto. }
  split; [done|].
  intros (dir & file & _ & _ & _ & _ & Hv)%Hiff. split; [done|].
  by apply is_file_valid_true in Hv as (_ & ? & _).
Qed.

(** ** The run as a whole *)

Lemma filter_none {A} (P : A → Prop) `{!∀ x, Decision (P x)} (l : list A) :
  (∀ x, x ∈ l → ¬ P x) → filter P l = [].
Proof.
  induction l as [|x l IH]; intros Hl; [done|].
  rewrite filter_cons_False by (apply Hl; left).
  apply IH. intros y Hy. apply Hl. by right.
Qed.

(** X6.  A run that fails before the library scan -- no target
    directory, no name ending in [.eopkg] in it, a stale extraction tree
    that cannot be removed, an extraction tree that cannot be made or
    entered -- ends with status 1 and leaves every file as it was. *)
Theorem failed_preparation_touches_no_file env o fs :
  order_ok o →
  (∀ e, prepare env o = Raise e →
     examine_abi env o fs = (fs, Raise e) ∧ exit_status (Raise e) = 1%Z) ∧
  (download_exists env = false → prepare env o = Raise (SystemExit 1)) ∧
  ((∀ item, item ∈ download_listing env → Py.endswith ".eopkg" item = false) →
     prepare env o = Raise (SystemExit 1)) ∧
  (prepare env o = Ok () →
     download_exists env = true ∧
     ∃ item, item ∈ download_listing env ∧ Py.endswith ".eopkg" item = true).
Proof.
  intros [Hscan _].
  assert (length (filter (λ item, Py.endswith ".eopkg" item = true)
            (scandir_order o (download_path env) _ (download_listing env)))
          = length (filter (λ item, Py.endswith ".eopkg" item = true)
              (download_listing env))) as Hlen
    by (by apply length_filter_perm).
  split_and!.
  - intros e He. split.
    + unfold examine_abi. rewrite run_bind_unfold. unfold lift at 1. by rewrite He.
    + revert He. unfold prepare, purge_tree.
      repeat (case_match; simpl; try done); by intros [= <-].
  - intros Hd. unfold prepare. by rewrite Hd.
  - intros Hnone. unfold prepare. destruct (download_exists env); [|done]. simpl.
    rewrite Hlen, filter_none; [done|].
    intros item Hitem. rewrite (Hnone item Hitem). done.
  - unfold prepare. destruct (download_exists env); [|done]. simpl.
    rewrite Hlen. case_bool_decide as Hn; [done|]. intros _. split; [done|].
    destruct (filter _ (download_listing env)) as [|item rest] eqn:Hfilter; [done|].
    assert (item ∈ filter (λ item, Py.endswith ".eopkg" item = true)
                     (download_listing env)) as [??]%list_elem_of_filter
      by (rewrite Hfilter; left).
    eauto.
Qed.

(** X7.  Sorting the keys of a report raises exactly when the report
    holds the key [None] together with at least one string key, and
    then a [TypeError]; [write_abi_report] then leaves an empty file at
    the path and raises, whatever was in the file before.  Without the
    key [None] the write always goes through. *)
Theorem sorted_keys_raises_on_mixed_keys (r : report) :
  (sorted_keys r = Raise (Uncaught TypeError) ↔
     is_Some (r !! None) ∧ ∃ name, is_Some (r !! Some name)) ∧
  (∀ e, sorted_keys r = Raise e → e = Uncaught TypeError) ∧
  (∀ (o : Order) (path : string) fs e,
     sorted_keys r = Raise e →
     write_abi_report o path r fs = (<[path := ""]> fs, Raise (Uncaught TypeError))) ∧
  (r !! None = None →
     ∀ (o : Order) (path : string) fs, (write_abi_report o path r fs).2 = Ok ()).
Proof.
  assert (∀ e, sorted_keys r = Raise e →
            e = Uncaught TypeError ∧ is_Some (r !! None) ∧
            ∃ name, is_Some (r !! Some name)) as Hraise.
  { intros e. unfold sorted_keys. destruct (r !! None) eqn:Hnone; [|done].
    destruct (string_keys r) as [|name names] eqn:Hkeys; [done|].
    intros [= <-]. split_and!; [done|eauto|].
    exists name. apply elem_of_string_keys. rewrite Hkeys. left. }
  split_and!.
  - split; [by intros (_ & ? & ?)%Hraise|].
    intros [[s Hs] [name Hname%elem_of_string_keys]]. unfold sorted_keys. rewrite Hs.
    destruct (string_keys r); [by apply elem_of_nil in Hname|done].
  - by intros e (-> & _)%Hraise.
  - intros o path fs e He. pose proof (Hraise e He) as (-> & [s Hs] & _).
    unfold write_abi_report. rewrite bool_decide_eq_false_2.
    + rewrite !run_bind_unfold. unfold update, lift. simpl. by rewrite He.
    + intros ->. by rewrite lookup_empty in Hs.
  - intros Hnone o path fs. unfold write_abi_report. case_bool_decide; [done|].
    rewrite !run_bind_unfold. unfold update, lift, sorted_keys. simpl.
    by rewrite Hnone.
Qed.

(** X8.  The symbol reports are on disk before the dependency pass
    starts: when [readelf] fails for an examined file, the run stops
    with an [AttributeError], both symbol reports written, both
    dependency reports left as they were. *)
Theorem dependency_failure_keeps_symbol_reports env o fs r r32 fs1 fs2 :
  prepare env o = Ok () →
  abi_reports env o = Ok (r, r32) →
  write_abi_report o (report_path env "abi_symbols") r fs = (fs1, Ok ()) →
  write_abi_report o (report_path env "abi_symbols32") r32 fs1 = (fs2, Ok ()) →
  (∃ e, get_all_native_dependencies env o (source_dir env) = Raise e) ∨
  (∃ e, get_all_32bit_dependencies env o (source_dir env) = Raise e) →
  examine_abi env o fs = (fs2, Raise (Uncaught AttributeError)) ∧
  fs2 !! report_path env "abi_symbols"
    = abi_report_file o r (fs !! report_path env "abi_symbols") ∧
  fs2 !! report_path env "abi_symbols32"
    = abi_report_file o r32 (fs !! report_path env "abi_symbols32") ∧
  fs2 !! report_path env "abi_used_libs" = fs !! report_path env "abi_used_libs" ∧
  fs2 !! report_path env "abi_used_libs32" = fs !! report_path env "abi_used_libs32".
Proof.
  intros Hp Hr H1 H2 Hfail.
  assert (∀ w e, get_all_dependencies env o w (source_dir env) = Raise e →
            e = Uncaught AttributeError) as Hexn.
  { intros w e. unfold get_all_dependencies.
    destruct (walk_sets env o w (source_dir env)) as [sn ex].
    apply for_each_raise. intros ???. apply dependency_step_raise. }
  pose proof (write_abi_report_lookup o (report_path env "abi_symbols") r fs) as L1.
  pose proof (write_abi_report_lookup o (report_path env "abi_symbols32") r32 fs1) as L2.
  rewrite H1 in L1. rewrite H2 in L2. simpl in L1, L2.
  split_and!.
  - unfold examine_abi.
    rewrite run_bind_unfold. unfold lift at 1. rewrite Hp.
    rewrite run_bind_unfold. unfold lift at 1. rewrite Hr.
    rewrite run_bind_unfold. unfold write_reports.
    rewrite run_bind_unfold. simpl. rewrite H1.
    rewrite run_bind_unfold. rewrite H2.
    rewrite run_bind_unfold. unfold lift at 1.
    destruct (get_all_native_dependencies env o (source_dir env)) as [d|e] eqn:Hd.
    + rewrite run_bind_unfold. unfold lift at 1.
      destruct Hfail as [[e He]|[e He]]; [done|]. rewrite He.
      by rewrite (Hexn true e He).
    + by rewrite (Hexn false e Hd).
  - by rewrite (write_abi_report_other _ _ _ _ _ _ _ H2) by (by apply report_path_ne).
  - by rewrite L2, (write_abi_report_other _ _ _ _ _ _ _ H1) by (by apply report_path_ne).
  - rewrite (write_abi_report_other _ _ _ _ _ _ _ H2) by (by apply report_path_ne).
    by rewrite (write_abi_report_other _ _ _ _ _ _ _ H1) by (by apply report_path_ne).
  - rewrite (write_abi_report_other _ _ _ _ _ _ _ H2) by (by apply report_path_ne).
    by rewrite (write_abi_report_other _ _ _ _ _ _ _ H1) by (by apply report_path_ne).
Qed.

(** X9.  The reports are written before the extraction tree is
    removed: when the Write step has run to its end, the run ends with
    status 0 if the tree can be removed and with status 1 if it cannot,
    and in both cases the files are the ones the Write step left. *)
Theorem cleanup_failure_keeps_reports env o fs reports fs' :
  prepare env o = Ok () →
  abi_reports env o = Ok reports →
  write_reports env o reports fs = (fs', Ok ()) →
  examine_abi env o fs =
    (fs', if rmtree_after_ok env then Ok () else Raise (SystemExit 1)).
Proof.
  intros Hp Hr Hw. unfold examine_abi.
  rewrite run_bind_unfold. unfold lift at 1. rewrite Hp.
  rewrite run_bind_unfold. unfold lift at 1. rewrite Hr.
  rewrite run_bind_unfold, Hw. unfold lift, purge_tree. simpl.
  by destruct (rmtree_after_ok env).
Qed.

(** ** Texts inside texts *)

Lemma app_cons c (a b : string) : String c a +:+ b = String c (a +:+ b).
Proof. done. Qed.

Lemma app_nil_l_s (b : string) : "" +:+ b = b.
Proof. done. Qed.

Lemma app_assoc_s (a b c : string) : (a +:+ b) +:+ c = a +:+ b +:+ c.
Proof. induction a as [|x a IH]; [done|]. by rewrite !app_cons, IH. Qed.

Lemma prefix_spec (a s : string) :
  String.prefix a s = true ↔ ∃ b, s = a +:+ b.
Proof.
  revert s. induction a as [|x a IH]; intros s.
  - split; [by exists s|by destruct s].
  - destruct s as [|y s]; cbn [String.prefix].
    + split; [done|]. intros [b Hb]. by rewrite app_cons in Hb.
    + destruct (ascii_dec x y) as [->|Hne].
      * rewrite IH. split; intros [b Hb]; exists b; rewrite ?app_cons in *; congruence.
      * split; [done|]. intros [b Hb]. rewrite app_cons in Hb. congruence.
Qed.

Lemma contains_spec (sub s : string) :
  Py.contains sub s = true ↔ ∃ pre post, s = pre +:+ sub +:+ post.
Proof.
  induction s as [|c s IH]; cbn [Py.contains].
  - rewrite orb_false_r, prefix_spec. split.
    + intros [b Hb]. by exists "", b.
    + intros (pre & post & H). destruct pre as [|x pre].
      * rewrite app_nil_l_s in H. eauto.
      * by rewrite app_cons in H.
  - rewrite orb_true_iff, prefix_spec, IH. split.
    + intros [[b Hb]|(pre & post & ->)]; [by exists "", b|].
      by exists (String c pre), post.
    + intros (pre & post & H). destruct pre as [|x pre].
      * rewrite app_nil_l_s in H. left. eauto.
      * rewrite app_cons in H. right. injection H as -> ->. eauto.
Qed.

Lemma drop_app (a b : string) : Py.drop (String.length a) (a +:+ b) = b.
Proof. induction a as [|x a IH]; [done|]. rewrite app_cons. simpl. done. Qed.

Lemma before_last_spec c s r :
  Py.before_last c s = Some r → ∃ rest, s = r +:+ String c rest.
Proof.
  revert r. induction s as [|a s IH]; intros r; cbn [Py.before_last]; [done|].
  destruct (Py.before_last c s) as [r'|].
  - intros [= <-]. destruct (IH r' eq_refl) as [rest ->]. by exists rest.
  - case_decide; [|done]. intros [= <-]. subst. by exists s.
Qed.

Lemma lstrip_suffix s : ∃ a, s = a +:+ Py.lstrip s.
Proof.
  induction s as [|c s [a IH]]; cbn [Py.lstrip]; [by exists ""|].
  destruct (Py.isspace c); [|by exists ""].
  exists (String c a). rewrite app_cons. by rewrite <-IH.
Qed.

Lemma rstrip_prefix s : ∃ b, s = Py.rstrip s +:+ b.
Proof.
  induction s as [|c s [b IH]]; cbn [Py.rstrip]; [by exists ""|].
  destruct (Py.rstrip s) as [|x r] eqn:Hr.
  - destruct (Py.isspace c).
    + by exists (String c s).
    + by exists s.
  - exists b. rewrite app_cons. by rewrite <-IH.
Qed.

Lemma strip_inside s : ∃ a b, s = a +:+ Py.strip s +:+ b.
Proof.
  destruct (lstrip_suffix s) as [a Ha], (rstrip_prefix (Py.lstrip s)) as [b Hb].
  exists a, b. unfold Py.strip. by rewrite <-Hb.
Qed.

Lemma split_on_first sep s :
  ∃ l ls rest, Py.split_on sep s = l :: ls ∧ s = l +:+ rest.
Proof.
  induction s as [|c s (l & ls & rest & Hs & Hrest)]; cbn [Py.split_on].
  - by exists "", [], "".
  - case_decide.
    + by exists "", (Py.split_on sep s), (String c s).
    + rewrite Hs. exists (String c l), ls, rest. rewrite app_cons. by rewrite <-Hrest.
Qed.

Lemma first_line_prefix s : ∃ rest, s = Py.first_line s +:+ rest.
Proof.
  unfold Py.first_line. destruct (split_on_first Py.nl s) as (l & ls & rest & -> & ?).
  eauto.
Qed.

Lemma no_nl_app a b : no_nl (a +:+ b) = no_nl a && no_nl b.
Proof.
  induction a as [|c a IH]; [done|].
  rewrite app_cons. cbn [no_nl]. by rewrite IH, andb_assoc.
Qed.

Lemma split_on_nl_no_nl s line : line ∈ Py.split_on Py.nl s → no_nl line = true.
Proof.
  revert line. induction s as [|c s IH]; intros line; simpl.
  - by intros ->%list_elem_of_singleton.
  - case_decide as Hc.
    + intros [->|?]%elem_of_cons; [done|by apply IH].
    + destruct (Py.split_on Py.nl s) as [|w ws]; [by intros ->%list_elem_of_singleton; simpl; rewrite bool_decide_eq_false_2|].
      intros [->|?]%elem_of_cons.
      * simpl. rewrite bool_decide_eq_false_2 by done. apply IH. by left.
      * apply IH. by right.
Qed.

(** The group of [shared_lib] stands in the text between the opening
    literal and a closing bracket. *)
Lemma shared_lib_from_sound s name :
  shared_lib_from s = Some name →
  ∃ pre post, s = pre +:+ shared_lib_open +:+ name +:+ String Py.rbracket post.
Proof.
  induction s as [|c s IH]; [done|].
  cbn [shared_lib_from]. destruct (shared_lib_from s) as [g|].
  - intros [= <-]. destruct (IH eq_refl) as (pre & post & ->).
    by exists (String c pre), post.
  - destruct (String.prefix shared_lib_open (String c s)) eqn:Hp; [|done].
    apply prefix_spec in Hp as [b Hb]. rewrite Hb, drop_app.
    intros [rest ->]%before_last_spec. by exists "", rest.
Qed.

Lemma shared_lib_sound line name :
  shared_lib (Py.strip line) = Some name →
  ∃ pre post, line = pre +:+ "Shared library: [" +:+ name +:+ "]" +:+ post.
Proof.
  unfold shared_lib. intros (pre & post & Hfl)%shared_lib_from_sound.
  destruct (first_line_prefix (Py.strip line)) as [rest Hrest].
  destruct (strip_inside line) as (a & b & Hline).
  rewrite Hrest, Hfl in Hline. exists (a +:+ pre), (post +:+ rest +:+ b).
  rewrite Hline. by rewrite !app_assoc_s.
Qed.

(** X10.  Every name [get_shared_dependencies] returns stands in one
    line of the output of [readelf], in brackets after the text
    [Shared library:], and holds no line feed; a line without that text
    adds nothing. *)
Theorem shared_dependencies_come_from_the_output env path deps :
  get_shared_dependencies env path = Ok deps →
  (∀ name, name ∈ deps →
     no_nl name = true ∧
     ∃ out line pre post,
       get_output env ("readelf -d " +:+ path) = Some out ∧
       line ∈ Py.split_on Py.nl out ∧
       line = pre +:+ "Shared library: [" +:+ name +:+ "]" +:+ post) ∧
  (∀ ret line, Py.contains "Shared library: [" line = false →
     shared_dependency_line ret line = ret).
Proof.
  unfold get_shared_dependencies.
  destruct (get_output env _) as [out|] eqn:Hout; [|done]. intros [= <-]. split.
  - intros name.
    rewrite (elem_of_foldl_union _
      (λ line, match shared_lib (Py.strip line) with Some n => {[n]} | None => ∅ end)).
    + intros [?%not_elem_of_empty|(line & Hline & Hname)]; [done|].
      destruct (shared_lib (Py.strip line)) as [n|] eqn:Hs;
        [|by apply not_elem_of_empty in Hname].
      apply elem_of_singleton in Hname as ->.
      destruct (shared_lib_sound _ _ Hs) as (pre & post & Heq). split.
      * apply split_on_nl_no_nl in Hline. rewrite Heq in Hline.
        rewrite !no_nl_app in Hline.
        by repeat (apply andb_true_iff in Hline as [? Hline] || destruct_and?).
      * exists out, line, pre, post. done.
    + intros acc line. unfold shared_dependency_line.
      destruct (shared_lib (Py.strip line)); set_solver.
  - intros ret line Hc. unfold shared_dependency_line.
    destruct (shared_lib (Py.strip line)) as [n|] eqn:Hs; [|done].
    destruct (shared_lib_sound _ _ Hs) as (pre & post & Heq).
    assert (Py.contains "Shared library: [" line = true); [|congruence].
    apply contains_spec. exists pre, (n +:+ "]" +:+ post). done.
Qed.

(** ** Reading the reports back *)

Lemma split_on_nl_line (a rest : string) :
  no_nl a = true →
  Py.split_on Py.nl (a +:+ String Py.nl rest) = a :: Py.split_on Py.nl rest.
Proof.
  induction a as [|c a IH]; intros Ha.
  - rewrite app_nil_l_s. cbn [Py.split_on]. by rewrite decide_True.
  - cbn [no_nl] in Ha. apply andb_true_iff in Ha as [Hc Ha].
    rewrite app_cons. cbn [Py.split_on].
    rewrite decide_False by (intros ->; by rewrite bool_decide_eq_true_2 in Hc).
    by rewrite IH.
Qed.

(** Lines without line feed, each followed by one, split back into
    themselves and the empty text after the last line feed. *)
Lemma split_on_nl_lines (ls : list string) :
  Forall (λ l, no_nl l = true) ls →
  Py.split_on Py.nl (concat_lines ((λ l, l +:+ Py.str1 Py.nl) <$> ls)) = ls ++ [""].
Proof.
  induction 1 as [|l ls Hl _ IH]; [done|].
  rewrite fmap_cons. cbn [concat_lines foldr].
  change (foldr String.app "" ((λ l, l +:+ Py.str1 Py.nl) <$> ls))
    with (concat_lines ((λ l, l +:+ Py.str1 Py.nl) <$> ls)).
  rewrite app_assoc_s. unfold Py.str1 at 1. rewrite app_cons, app_nil_l_s.
  by rewrite split_on_nl_line, IH.
Qed.

Lemma shared_dependencies_no_nl env path deps name :
  get_shared_dependencies env path = Ok deps → name ∈ deps → no_nl name = true.
Proof.
  unfold get_shared_dependencies.
  destruct (get_output env _) as [out|]; [|done]. intros [= <-].
  rewrite (elem_of_foldl_union _
    (λ line, match shared_lib (Py.strip line) with Some n => {[n]} | None => ∅ end)).
  - intros [?%not_elem_of_empty|(line & Hline & Hname)]; [done|].
    destruct (shared_lib (Py.strip line)) as [n|] eqn:Hs;
      [|by apply not_elem_of_empty in Hname].
    apply elem_of_singleton in Hname as ->.
    destruct (shared_lib_sound _ _ Hs) as (pre & post & Heq).
    apply split_on_nl_no_nl in Hline. rewrite Heq, !no_nl_app in Hline.
    by repeat (apply andb_true_iff in Hline as [? Hline] || destruct_and?).
  - intros acc line. unfold shared_dependency_line.
    destruct (shared_lib (Py.strip line)); set_solver.
Qed.

(** X11.  No name of a dependency report holds a line feed, so the file
    of a report that is not empty, split at the line feeds, gives back
    the names of the report in sorted order, each once, and the empty
    text after the last line feed. *)
Theorem dependency_report_reads_back env o (want32 : bool) path deps :
  order_ok o →
  (if want32 then get_all_32bit_dependencies else get_all_native_dependencies)
    env o path = Ok deps →
  (∀ name, name ∈ deps → no_nl name = true) ∧
  (deps ≠ ∅ → ∀ old, ∃ text,
     used_libs_file o deps old = Some text ∧
     Py.split_on Py.nl text = sorted o deps ++ [""]) ∧
  (deps = ∅ → ∀ old, used_libs_file o deps old = (λ _, "") <$> old).
Proof.
  intros Ho Hget.
  assert (get_all_dependencies env o want32 path = Ok deps) as Hall
    by (by destruct want32).
  clear Hget. unfold get_all_dependencies in Hall.
  destruct (walk_sets env o want32 path) as [sn ex].
  apply dependency_loop_spec in Hall.
  assert (∀ name, name ∈ deps → no_nl name = true) as Hnl.
  { intros name. rewrite Hall, elem_of_union, elem_of_difference, elem_of_union_list.
    intros [?%not_elem_of_empty|[(X & HX & Hname) _]]; [done|].
    apply list_elem_of_fmap in HX as (p & -> & _). unfold dependencies_of in Hname.
    destruct (get_shared_dependencies env p) eqn:Hp;
      [by eapply shared_dependencies_no_nl|by apply not_elem_of_empty in Hname]. }
  split_and!; [done| |].
  - intros Hne old. unfold used_libs_file. rewrite bool_decide_eq_false_2 by done.
    eexists. split; [done|]. apply split_on_nl_lines.
    apply Forall_forall. intros name Hname. apply Hnl. by apply (elem_of_sorted o).
  - intros -> old. unfold used_libs_file. by rewrite bool_decide_eq_true_2.
Qed.

Lemma get_soname_no_nl env path :
  no_nl (Py.format_opt (get_soname env path)) = true.
Proof.
  unfold get_soname. destruct (get_output env _) as [line|]; [|done].
  destruct (negb _); [done|].
  destruct (Py.split (Py.strip line) !! 1%nat) as [soname|] eqn:Hso; [|done].
  apply list_elem_of_lookup_2, split_fields in Hso as [_ ?]. by apply no_space_no_nl.
Qed.

Lemma symbols_of_no_nl env library symbol :
  symbol ∈ symbols_of env library → no_nl symbol = true.
Proof.
  unfold symbols_of. destruct (dump_symbols env library) as [syms|] eqn:Hd;
    [|by intros ?%not_elem_of_empty].
  intros (out & line & addr & ty & _ & _ & Hsplit & _)%(elem_of_dump_symbols _ _ _ _ Hd).
  assert (symbol ∈ Py.split (Py.strip line)) as [??]%split_fields
    by (rewrite Hsplit; set_solver).
  by apply no_space_no_nl.
Qed.

Lemma report_lines_fmap (o : Order) (r : report) ks :
  report_lines o r ks =
  (λ l, l +:+ Py.str1 Py.nl) <$>
    (ks ≫= λ soname, (λ symbol, Py.format_opt soname +:+ ":" +:+ symbol)
                       <$> sorted o (entry r soname)).
Proof.
  unfold report_lines. induction ks as [|k ks IH]; [done|].
  rewrite !bind_cons, fmap_app, IH. f_equal.
  rewrite <-list_fmap_compose. apply list_fmap_ext. intros _ symbol _. simpl.
  by rewrite !app_assoc_s.
Qed.

(** X12.  No SONAME and no symbol of a report holds a line feed, so the
    text written for a symbol report, split at the line feeds, gives
    back one text SONAME:symbol for each symbol of each key, keys and
    symbols in the order they were written, and the empty text after the
    last line feed. *)
Theorem symbol_report_reads_back env o r r32 :
  order_ok o → abi_reports env o = Ok (r, r32) →
  ∀ rep ks, rep = r ∨ rep = r32 → sorted_keys rep = Ok ks →
    Py.split_on Py.nl (concat_lines (report_lines o rep ks)) =
    (ks ≫= λ soname, (λ symbol, Py.format_opt soname +:+ ":" +:+ symbol)
                       <$> sorted o (entry rep soname)) ++ [""].
Proof.
  intros Ho Hr rep ks Hrep Hks.
  destruct (abi_reports_spec env o r r32 Ho Hr) as (_ & _ & _ & Hs).
  rewrite report_lines_fmap. apply split_on_nl_lines.
  apply Forall_forall. intros l (k & Hl & Hk)%list_elem_of_bind.
  apply list_elem_of_fmap in Hl as (symbol & -> & Hsym%(elem_of_sorted o _ _ Ho)).
  assert (∃ w, declared_under env (elements (collected_files env o)) w k symbol)
    as (w & library & _ & _ & <- & Hin).
  { destruct (Hs k symbol) as [H64 H32].
    destruct Hrep as [-> | ->];
      [exists false; apply H64; exact Hsym|exists true; apply H32; exact Hsym]. }
  rewrite !no_nl_app, get_soname_no_nl, (symbols_of_no_nl env library symbol Hin).
  done.
Qed.

(** ** The magic of a file *)

Lemma first_line_no_nl s : no_nl (Py.first_line s) = true.
Proof.
  unfold Py.first_line. destruct (split_on_first Py.nl s) as (l & ls & rest & Hs & _).
  rewrite Hs. apply (split_on_nl_no_nl s). rewrite Hs. left.
Qed.

Lemma split_on_nl_id s : no_nl s = true → Py.split_on Py.nl s = [s].
Proof.
  induction s as [|c s IH]; [done|]. cbn [no_nl Py.split_on].
  intros [Hc Hs]%andb_true_iff.
  rewrite decide_False by (intros ->; by rewrite bool_decide_eq_true_2 in Hc).
  by rewrite IH.
Qed.

Lemma first_line_id s : no_nl s = true → Py.first_line s = s.
Proof. intros Hs. unfold Py.first_line. by rewrite split_on_nl_id. Qed.

Lemma strip_no_nl s : no_nl s = true → no_nl (Py.strip s) = true.
Proof.
  destruct (strip_inside s) as (a & b & Hs). rewrite Hs at 1.
  rewrite !no_nl_app. by intros [_ [? _]%andb_true_iff]%andb_true_iff.
Qed.

(** X13.  The magic [get_file_magic] returns is one line: it holds no
    line feed.  On it the two patterns are plain searches for their
    literal texts: [reg] asks for a shared object, [valid_dyn] for a
    shared object or an executable, of either width, each with a space
    before ELF and the comma after. *)
Theorem file_magic_is_one_line env path mg :
  get_file_magic env path = Some mg →
  no_nl mg = true ∧
  reg mg = (Py.contains " ELF 64-bit LSB shared object," mg ||
            Py.contains " ELF 32-bit LSB shared object," mg) ∧
  valid_dyn mg = (Py.contains " ELF 64-bit LSB shared object," mg ||
                  Py.contains " ELF 64-bit LSB executable," mg ||
                  Py.contains " ELF 32-bit LSB shared object," mg ||
                  Py.contains " ELF 32-bit LSB executable," mg) ∧
  (reg mg = true → valid_dyn mg = true).
Proof.
  unfold get_file_magic. destruct (get_output env _) as [out|]; [|done].
  intros [= <-].
  assert (no_nl (Py.strip (Py.first_line out)) = true) as Hnl
    by apply strip_no_nl, first_line_no_nl.
  split_and!; [done| | |apply reg_valid_dyn].
  - unfold reg. cbv zeta. by rewrite first_line_id.
  - unfold valid_dyn. cbv zeta. by rewrite first_line_id.
Qed.

(** ** What status 0 means *)

Lemma sorted_keys_raise (r : report) e :
  sorted_keys r = Raise e → e = Uncaught TypeError.
Proof. unfold sorted_keys. repeat case_match; try done; by intros [= <-]. Qed.

Lemma write_abi_report_raise (o : Order) (path : string) (r : report) fs fs' e :
  write_abi_report o path r fs = (fs', Raise e) → e = Uncaught TypeError.
Proof.
  unfold write_abi_report. case_bool_decide; [done|].
  rewrite !run_bind_unfold. unfold update, lift. simpl.
  destruct (sorted_keys r) as [ks|e'] eqn:Hks; [done|]. intros [= _ <-].
  by eapply sorted_keys_raise.
Qed.

(** X14.  A run that ends with status 0 has passed every check, scanned
    every collected library, computed both dependency reports and
    removed the extraction tree; each of the four report files then
    holds the text of its report, or, for an empty report, is empty if
    it was there before and absent if it was not.  A run never ends with
    a status other than 0 and 1. *)
Theorem status_zero_means_all_reports_written env o fs :
  (∀ fs', examine_abi env o fs = (fs', Ok ()) →
     prepare env o = Ok () ∧ rmtree_after_ok env = true ∧
     ∃ r r32 lib_deps lib_deps32,
       abi_reports env o = Ok (r, r32) ∧
       get_all_native_dependencies env o (source_dir env) = Ok lib_deps ∧
       get_all_32bit_dependencies env o (source_dir env) = Ok lib_deps32 ∧
       fs' !! report_path env "abi_symbols"
         = abi_report_file o r (fs !! report_path env "abi_symbols") ∧
       fs' !! report_path env "abi_symbols32"
         = abi_report_file o r32 (fs !! report_path env "abi_symbols32") ∧
       fs' !! report_path env "abi_used_libs"
         = used_libs_file o lib_deps (fs !! report_path env "abi_used_libs") ∧
       fs' !! report_path env "abi_used_libs32"
         = used_libs_file o lib_deps32 (fs !! report_path env "abi_used_libs32")) ∧
  (exit_status (examine_abi env o fs).2 = 0%Z ∨
   exit_status (examine_abi env o fs).2 = 1%Z).
Proof.
  assert (∀ e, prepare env o = Raise e → exit_status (Raise e) = 1%Z) as Hprep.
  { intros e. unfold prepare, purge_tree.
    repeat (case_match; simpl; try done); by intros [= <-]. }
  assert (∀ e, abi_reports env o = Raise e → e = Uncaught AttributeError) as Hscan.
  { intros e. unfold abi_reports. apply for_each_raise.
    intros st x e'. unfold examine_library, dump_symbols.
    destruct (get_output env _); simpl;
      [by destruct (is_32bit env x)|by intros [= <-]]. }
  assert (∀ w e, get_all_dependencies env o w (source_dir env) = Raise e →
            e = Uncaught AttributeError) as Hdeps.
  { intros w e. unfold get_all_dependencies.
    destruct (walk_sets env o w (source_dir env)) as [sn ex].
    apply for_each_raise. intros ???. apply dependency_step_raise. }
  assert (∀ reports fs1 e, write_reports env o reports fs = (fs1, Raise e) →
            exit_status (Raise e) = 1%Z) as Hwrite.
  { intros [r r32] fs1 e. unfold write_reports. rewrite run_bind_unfold. simpl.
    destruct (write_abi_report o _ r fs) as [fsa [[]|ea]] eqn:Ha.
    - rewrite run_bind_unfold.
      destruct (write_abi_report o _ r32 fsa) as [fsb [[]|eb]] eqn:Hb.
      + rewrite run_bind_unfold. unfold lift at 1.
        destruct (get_all_native_dependencies env o _) as [d|ed] eqn:Hd.
        * rewrite run_bind_unfold. unfold lift at 1.
          destruct (get_all_32bit_dependencies env o _) as [d32|ed32] eqn:Hd32.
          -- rewrite run_bind_unfold.
             destruct (write_used_libs o _ d fsb) as [fsc outc] eqn:Hc.
             pose proof (write_used_libs_ok o (report_path env "abi_used_libs") d fsb) as Hok.
             rewrite Hc in Hok. simpl in Hok. subst outc.
             intros Hlast.
             pose proof (write_used_libs_ok o (report_path env "abi_used_libs32") d32 fsc)
               as Hok. rewrite Hlast in Hok. done.
          -- intros [= _ <-]. by rewrite (Hdeps true _ Hd32).
        * intros [= _ <-]. by rewrite (Hdeps false _ Hd).
      + intros [= _ <-]. by rewrite (write_abi_report_raise _ _ _ _ _ _ Hb).
    - intros [= _ <-]. by rewrite (write_abi_report_raise _ _ _ _ _ _ Ha). }
  unfold examine_abi. rewrite run_bind_unfold. unfold lift at 1.
  destruct (prepare env o) as [[]|e] eqn:Hp; simpl.
  2:{ split; [done|right; by apply Hprep]. }
  rewrite run_bind_unfold. unfold lift at 1.
  destruct (abi_reports env o) as [[r r32]|e] eqn:Hr; simpl.
  2:{ split; [done|right; by rewrite (Hscan e eq_refl)]. }
  rewrite run_bind_unfold.
  destruct (write_reports env o (r, r32) fs) as [fs1 [[]|e]] eqn:Hw; simpl.
  2:{ split; [done|right; by eapply Hwrite]. }
  unfold lift, purge_tree. simpl. split.
  - intros fs'. destruct (rmtree_after_ok env); [|done]. intros [= <-].
    split_and!; try done.
    destruct (write_reports_files env o r r32 fs fs1 Hw)
      as (d & d32 & ? & ? & ? & ? & ? & ? & _).
    exists r, r32, d, d32. split_and!; done.
  - destruct (rmtree_after_ok env); auto.
Qed.

(** ** The SONAME line of objdump *)










(** ** The further properties on concrete runs *)

Section further_runs.
Import Sample Scenario.

Local Ltac compute_eq := vm_compute; reflexivity.
Local Ltac decide_by_computation := apply (bool_decide_unpack _); vm_compute; exact I.

(** [env] with another listing of the target directory. *)
Definition with_listing (listing : list string) (env : Env) : Env :=
  {| download_path := download_path env;
     download_exists := download_exists env;
     download_listing := listing;
     extract_dir_exists := extract_dir_exists env;
     rmtree_before_ok := rmtree_before_ok env;
     makedirs_ok := makedirs_ok env;
     chdir_install_ok := chdir_install_ok env;
     rmtree_after_ok := rmtree_after_ok env;
     os_path_exists := os_path_exists env;
     os_path_isfile := os_path_isfile env;
     os_path_islink := os_path_islink env;
     os_path_isdir := os_path_isdir env;
     os_listdir := os_listdir env;
     install_tree := install_tree env;
     subprocess_getoutput := subprocess_getoutput env |}.

(** [env] with an extraction tree that cannot be removed at the end. *)
Definition with_failing_cleanup (env : Env) : Env :=
  {| download_path := download_path env;
     download_exists := download_exists env;
     download_listing := download_listing env;
     extract_dir_exists := extract_dir_exists env;
     rmtree_before_ok := rmtree_before_ok env;
     makedirs_ok := makedirs_ok env;
     chdir_install_ok := chdir_install_ok env;
     rmtree_after_ok := false;
     os_path_exists := os_path_exists env;
     os_path_isfile := os_path_isfile env;
     os_path_islink := os_path_islink env;
     os_path_isdir := os_path_isdir env;
     os_listdir := os_listdir env;
     install_tree := install_tree env;
     subprocess_getoutput := subprocess_getoutput env |}.

(** The library of scenario B next to an executable for which the call
    of [readelf] raises. *)
Definition library_and_failing_readelf : Env :=
  env_of [libfoo; tool] []
    [(root +:+ "/usr/lib64", ["libfoo.so.1"])]
    [("usr", Dir [("bin", Dir [("tool", File)]);
                  ("lib64", Dir [("libfoo.so.1", File)])])]
    [(file_cmd libfoo, elf64_so libfoo);
     (file_cmd tool, elf64_exe tool);
     (objdump_cmd libfoo, soname_line "libfoo.so.1");
     (nm_cmd libfoo, Some (lines ["0000000000001100 T foo"]));
     (readelf_cmd libfoo, Some (lines [needed "libc.so.6"]));
     (readelf_cmd tool, None)].


Lemma collected_files_are_valid_entries_witness :
  is_file_valid scenario_b libfoo = true ∧ os_path_islink scenario_b libfoo = false.
Proof.
  apply (proj2 (collected_files_are_valid_entries scenario_b plain_order libfoo
                  plain_order_ok)).
  decide_by_computation.
Defined.

Lemma failed_preparation_touches_no_file_witness :
  examine_abi (with_listing ["README"; "pkg.tar"] scenario_b) backwards
    {["/w/abi_symbols" := "old"]}
  = ({["/w/abi_symbols" := "old"]}, Raise (SystemExit 1)).
Proof.
  destruct (failed_preparation_touches_no_file
              (with_listing ["README"; "pkg.tar"] scenario_b) backwards
              {["/w/abi_symbols" := "old"]} backwards_ok) as (H & _ & Hnone & _).
  apply H, Hnone. intros item Hitem.
  repeat (apply elem_of_cons in Hitem as [->|Hitem]; [compute_eq|]).
  by apply elem_of_nil in Hitem.
Defined.

Lemma dependency_failure_keeps_symbol_reports_witness :
  examine_abi library_and_failing_readelf plain_order {["/w/abi_used_libs" := "old"]}
  = (<["/w/abi_symbols" := "libfoo.so.1:foo" +:+ Py.str1 Py.nl]>
       {["/w/abi_used_libs" := "old"]},
     Raise (Uncaught AttributeError)).
Proof.
  refine (proj1 (dependency_failure_keeps_symbol_reports library_and_failing_readelf
                   plain_order {["/w/abi_used_libs" := "old"]}
                   {[Some "libfoo.so.1" := {["foo"]}]} ∅
                   (<["/w/abi_symbols" := "libfoo.so.1:foo" +:+ Py.str1 Py.nl]>
                      {["/w/abi_used_libs" := "old"]})
                   _ _ _ _ _ _)); try compute_eq.
  left. exists (Uncaught AttributeError). compute_eq.
Defined.

Lemma cleanup_failure_keeps_reports_witness :
  examine_abi (with_failing_cleanup scenario_b) plain_order ∅
  = (<["/w/abi_used_libs" := "libc.so.6" +:+ Py.str1 Py.nl]>
       {["/w/abi_symbols" :=
           "libfoo.so.1:bar" +:+ Py.str1 Py.nl +:+ "libfoo.so.1:foo" +:+ Py.str1 Py.nl]},
     Raise (SystemExit 1)).
Proof.
  apply (cleanup_failure_keeps_reports (with_failing_cleanup scenario_b) plain_order ∅
           ({[Some "libfoo.so.1" := {["bar"; "foo"]}]}, ∅)); compute_eq.
Defined.

Lemma shared_dependencies_come_from_the_output_witness :
  no_nl "libexternal.so.5" = true.
Proof.
  refine (proj1 (proj1 (shared_dependencies_come_from_the_output provider_and_consumer
                          app {["libinternal.so.2"; "libexternal.so.5"]} _)
                   "libexternal.so.5" _)).
  - compute_eq.
  - decide_by_computation.
Defined.

Lemma dependency_report_reads_back_witness :
  ∃ text,
    used_libs_file backwards {["libc.so.6"; "libexternal.so.5"]} None = Some text ∧
    Py.split_on Py.nl text
    = sorted backwards {["libc.so.6"; "libexternal.so.5"]} ++ [""].
Proof.
  refine (proj1 (proj2 (dependency_report_reads_back provider_and_consumer backwards
                          false root {["libc.so.6"; "libexternal.so.5"]}
                          backwards_ok _)) _ None).
  - compute_eq.
  - intros H. assert ("libc.so.6" ∈ (∅ : gset string)) as Hin
      by (rewrite <-H; decide_by_computation).
    by apply not_elem_of_empty in Hin.
Defined.

Lemma symbol_report_reads_back_witness :
  Py.split_on Py.nl
    (concat_lines (report_lines backwards
       {[Some "libz.so.1" := {["crc32"; "deflate"; "inflate"]}]} [Some "libz.so.1"]))
  = ["libz.so.1:crc32"; "libz.so.1:deflate"; "libz.so.1:inflate"; ""].
Proof.
  refine (eq_trans
    (symbol_report_reads_back same_soname backwards
       {[Some "libz.so.1" := {["crc32"; "deflate"; "inflate"]}]} ∅ backwards_ok _
       {[Some "libz.so.1" := {["crc32"; "deflate"; "inflate"]}]} [Some "libz.so.1"]
       (or_introl eq_refl) _) _); compute_eq.
Defined.

Lemma file_magic_is_one_line_witness :
  reg (libfoo +:+ ": ELF 64-bit LSB shared object, x86-64, version 1 (SYSV)") = true.
Proof.
  destruct (file_magic_is_one_line scenario_b libfoo
              (libfoo +:+ ": ELF 64-bit LSB shared object, x86-64, version 1 (SYSV)"))
    as (_ & -> & _); compute_eq.
Defined.


End further_runs.
